(** * mirdata.download_utils: a shallow embedding and its properties

    The module downloads the remote files of a dataset, checks their MD5
    checksum and unpacks zip and tar archives next to where they were
    saved.  The embedding follows [mirdata/download_utils.py] function by
    function.  The Python standard library ([os.path], [os], [urllib],
    [zipfile], [tarfile]) is modelled on a POSIX platform, over a finite
    map from path strings to nodes; [tarfile] is taken without an
    extraction filter. *)

From Stdlib Require Import ZArith Lia Bool List Ascii String.
From stdpp Require Import base option gmap strings.
Import ListNotations.

Local Open Scope string_scope.
Local Open Scope Z_scope.

(** ** Python [str] operations used by the module *)

Module PyStr.

(** [s.rfind(c)] for a one-character [c]: the highest index of [c], or -1. *)
Fixpoint rfind (c : ascii) (s : string) : Z :=
  match s with
  | EmptyString => -1
  | String a r =>
      let k := rfind c r in
      if 0 <=? k then k + 1
      else if Ascii.eqb a c then 0 else -1
  end.

(** [s[:i]] and [s[i:]] for an index [i >= 0]. *)
Fixpoint slice_to (s : string) (i : nat) : string :=
  match i, s with
  | O, _ => EmptyString
  | S _, EmptyString => EmptyString
  | S n, String a r => String a (slice_to r n)
  end.

Fixpoint slice_from (s : string) (i : nat) : string :=
  match i, s with
  | O, _ => s
  | S _, EmptyString => EmptyString
  | S n, String _ r => slice_from r n
  end.

(** [s[i:i+1]]: the character at [i] as a string, empty out of range. *)
Definition char_at (s : string) (i : nat) : string :=
  slice_to (slice_from s i) 1.

(** [sub in s]. *)
Fixpoint contains (sub s : string) : bool :=
  String.prefix sub s ||
  match s with
  | EmptyString => false
  | String _ r => contains sub r
  end.

(** [s.startswith(p)] and [s.endswith(p)]. *)
Definition startswith (s p : string) : bool := String.prefix p s.

Fixpoint endswith (s p : string) : bool :=
  String.eqb s p ||
  match s with
  | EmptyString => false
  | String _ r => endswith r p
  end.

(** [s == c * len(s)]: every character of [s] is [c]. *)
Fixpoint all_char (c : ascii) (s : string) : bool :=
  match s with
  | EmptyString => true
  | String a r => Ascii.eqb a c && all_char c r
  end.

(** [s.rstrip(c)] for a one-character [c]. *)
Fixpoint rstrip (c : ascii) (s : string) : string :=
  match s with
  | EmptyString => EmptyString
  | String a r =>
      let r' := rstrip c r in
      if String.eqb r' EmptyString && Ascii.eqb a c then EmptyString
      else String a r'
  end.

Definition is_empty (s : string) : bool := String.eqb s EmptyString.

(** [s.split(c)] for a one-character [c]. *)
Fixpoint split (c : ascii) (s : string) : list string :=
  match s with
  | EmptyString => [EmptyString]
  | String a r =>
      if Ascii.eqb a c then EmptyString :: split c r
      else match split c r with
           | [] => [String a EmptyString]
           | h :: t => String a h :: t
           end
  end.

End PyStr.

(** ** [os.path] on a POSIX platform ([posixpath]) *)

Module OsPath.

Definition sep : ascii := "/"%char.
Definition extsep : ascii := "."%char.

(** The loop of [genericpath._splitext] that skips the leading dots of
    the file name; it runs [dotIndex - filenameIndex] times at most. *)
Fixpoint splitext_scan (p : string) (dotIndex : nat) (steps : nat)
         (filenameIndex : nat) : string * string :=
  match steps with
  | O => (p, EmptyString)
  | S n =>
      if negb (String.eqb (PyStr.char_at p filenameIndex) (String extsep EmptyString))
      then (PyStr.slice_to p dotIndex, PyStr.slice_from p dotIndex)
      else splitext_scan p dotIndex n (S filenameIndex)
  end.

(** [os.path.splitext(p)]. *)
Definition splitext (p : string) : string * string :=
  let sepIndex := PyStr.rfind sep p in
  let dotIndex := PyStr.rfind extsep p in
  if sepIndex <? dotIndex then
    let filenameIndex := sepIndex + 1 in
    splitext_scan p (Z.to_nat dotIndex)
                  (Z.to_nat (dotIndex - filenameIndex))
                  (Z.to_nat filenameIndex)
  else (p, EmptyString).

(** [os.path.join(a, b)]. *)
Definition join (a b : string) : string :=
  if PyStr.startswith b (String sep EmptyString) then b
  else if PyStr.is_empty a || PyStr.endswith a (String sep EmptyString)
       then a +:+ b
       else a +:+ String sep EmptyString +:+ b.

(** [os.path.dirname(p)]. *)
Definition dirname (p : string) : string :=
  let i := PyStr.rfind sep p + 1 in
  let head := PyStr.slice_to p (Z.to_nat i) in
  if negb (PyStr.is_empty head) && negb (PyStr.all_char sep head)
  then PyStr.rstrip sep head
  else head.

(** The loop of [os.path.normpath] over the parts of the path: empty parts
    and [.] are left out, [..] takes back the part before it. *)
Definition normpath_step (initial_slashes : nat) (new_comps : list string)
           (comp : string) : list string :=
  if String.eqb comp "" || String.eqb comp "." then new_comps
  else if negb (String.eqb comp "..")
          || (Nat.eqb initial_slashes 0
              && match new_comps with [] => true | _ :: _ => false end)
          || String.eqb (List.last new_comps EmptyString) ".."
       then (new_comps ++ [comp])%list
       else List.removelast new_comps.

Definition initial_slashes_of (path : string) : nat :=
  if PyStr.startswith path "/" then
    if PyStr.startswith path "//" && negb (PyStr.startswith path "///")
    then 2%nat else 1%nat
  else 0%nat.

(** [os.path.normpath(path)]. *)
Definition normpath (path : string) : string :=
  if PyStr.is_empty path then "."
  else
    let initial_slashes := initial_slashes_of path in
    let comps := fold_left (normpath_step initial_slashes)
                           (PyStr.split sep path) [] in
    let path' := String.concat "" (List.repeat "/" initial_slashes)
                 +:+ String.concat "/" comps in
    if PyStr.is_empty path' then "." else path'.

End OsPath.

(** ** Data model *)

(** The named tuple [RemoteFileMetadata]; [destination_dir] is a relative
    path or [None]. *)
Record RemoteFileMetadata := {
  filename : string;
  url : string;
  checksum : string;
  destination_dir : option string
}.

(** A Python [dict] from keys to remote files, in insertion order. *)
Definition remotes := list (string * RemoteFileMetadata).

Definition dict_keys (d : remotes) : list string := map fst d.

Fixpoint dict_lookup (d : remotes) (k : string) : option RemoteFileMetadata :=
  match d with
  | [] => None
  | (k', r) :: rest => if String.eqb k' k then Some r else dict_lookup rest k
  end.

(** [key in download.keys()]. *)
Definition in_keys (k : string) (d : remotes) : bool :=
  existsb (String.eqb k) (dict_keys d).

(** The values the argument [partial_download] can take: [None], a list of
    keys, or an object of another type (a dict has a [keys] method, any
    other object is known by its type name only). *)
Inductive pyarg :=
| PyNone
| PyList (keys : list string)
| PyDict (keys : list string)
| PyOther (tyname : string).

Definition type_name (a : pyarg) : string :=
  match a with
  | PyNone => "NoneType"
  | PyList _ => "list"
  | PyDict _ => "dict"
  | PyOther t => t
  end.

(** The three lists [zip_downloads], [tar_downloads], [file_downloads]. *)
Inductive group := Zip | Tar | Plain.

(** ** The world: file system, remote servers, what was observed *)

Inductive node :=
| Dir
| File (content : string).

(** The classes of the exceptions: [IOError] is what line 175 raises,
    [FileNotFoundError], [IsADirectoryError], [NotADirectoryError] and
    [FileExistsError] come from opening, making or removing a path,
    [URLError] stands for what a failed transfer raises, [BadArchive] for
    what the readers of archives raise. *)
Inductive exn_class :=
| TypeError | KeyError | AttributeError | IOError
| FileNotFoundError | IsADirectoryError
| NotADirectoryError | FileExistsError
| URLError | BadArchive.

Inductive exn := Exn (cls : exn_class) (msg : string).

Definition exn_cls (e : exn) : exn_class := let 'Exn c _ := e in c.
Definition exn_msg (e : exn) : string := let 'Exn _ m := e in m.

(** What a server does with a request: it serves a body, or the transfer
    fails (connection reset, timeout, non-success status), possibly after
    part of the body was written to the local file. *)
Inductive response :=
| Served (body : string)
| Failed (info : string) (written : option string).

(** Most recent event first. *)
Inductive event :=
| EPrint (msg : string)
| EUrlretrieve (url path : string)
| EOpenArchive (path : string).

Record world := {
  fs : gmap string node;
  net : string -> response;
  events : list event
}.

Definition with_fs (w : world) (m : gmap string node) : world :=
  {| fs := m; net := net w; events := events w |}.

Definition log (e : event) (w : world) : world :=
  {| fs := fs w; net := net w; events := e :: events w |}.

Definition is_urlretrieve (e : event) : bool :=
  match e with EUrlretrieve _ _ => true | _ => false end.

(** Number of network transfers started so far. *)
Definition net_calls (w : world) : nat :=
  List.length (List.filter is_urlretrieve (events w)).

(** ** Computations that change the world and may raise *)

Inductive result (A : Type) :=
| Ok (a : A)
| Raise (e : exn).
Arguments Ok {A} a.
Arguments Raise {A} e.

Definition M (A : Type) : Type := world -> result A * world.

Definition ret {A} (a : A) : M A := fun w => (Ok a, w).
Definition raise {A} (e : exn) : M A := fun w => (Raise e, w).
Definition bind {A B} (c : M A) (k : A -> M B) : M B :=
  fun w => match c w with
           | (Ok a, w') => k a w'
           | (Raise e, w') => (Raise e, w')
           end.
(** [try: c except Exception as e: h e]. *)
Definition try_except {A} (c : M A) (h : exn -> M A) : M A :=
  fun w => match c w with
           | (Ok a, w') => (Ok a, w')
           | (Raise e, w') => h e w'
           end.

Notation "x <- c ;; k" := (bind c (fun x => k))
  (at level 100, c at next level, right associativity).
Notation "c ;; k" := (bind c (fun _ => k))
  (at level 100, right associativity).

(** The [for x in xs: body x] loop. *)
Fixpoint for_each {A} (xs : list A) (body : A -> M unit) : M unit :=
  match xs with
  | [] => ret tt
  | x :: rest => body x ;; for_each rest body
  end.

Definition print (msg : string) : M unit :=
  fun w => (Ok tt, log (EPrint msg) w).


(** ** [os] and the file system

    The file system is a finite map from paths to nodes.  A path is looked
    up as the string it is: the paths of a world and the paths given to the
    functions are taken in normal form (no empty, [.] or [..] component, no
    symbolic link), where two strings name the same node only when they are
    equal.  The root is always there; a relative path is relative to the
    current directory, which exists.  Permissions and a full disk are not
    part of the model. *)

(** [p] is the root: a non-empty run of separators. *)
Definition is_root (p : string) : bool :=
  negb (PyStr.is_empty p) && PyStr.all_char OsPath.sep p.

(** The node that a path names: the empty path names nothing, any other
    path what the map holds there; the root is a directory also when the
    map does not say so. *)
Definition node_at (m : gmap string node) (p : string) : option node :=
  if PyStr.is_empty p then None
  else match m !! p with
       | Some n => Some n
       | None => if is_root p then Some Dir else None
       end.

(** [os.path.exists(p)] on a file system. *)
Definition exists_in (m : gmap string node) (p : string) : bool :=
  match node_at m p with
  | Some _ => true
  | None => false
  end.

(** [os.path.exists(p)] and [os.path.isdir(p)]. *)
Definition path_exists (p : string) : M bool :=
  fun w => (Ok (exists_in (fs w) p), w).

Definition path_isdir (p : string) : M bool :=
  fun w => (Ok match node_at (fs w) p with Some Dir => true | _ => false end, w).

Definition msg_is_a_directory (p : string) : string :=
  "[Errno 21] Is a directory: '" +:+ p +:+ "'".
Definition msg_no_such_file (p : string) : string :=
  "[Errno 2] No such file or directory: '" +:+ p +:+ "'".
Definition msg_not_a_directory (p : string) : string :=
  "[Errno 20] Not a directory: '" +:+ p +:+ "'".
Definition msg_file_exists (p : string) : string :=
  "[Errno 17] File exists: '" +:+ p +:+ "'".

(** What the system checks before it makes a new entry at [p]: the
    directory [os.path.dirname(p)] is there and is a directory; the empty
    one is the current directory. *)
Definition check_parent (p : string) : M unit :=
  fun w =>
    let parent := OsPath.dirname p in
    if PyStr.is_empty parent then (Ok tt, w)
    else match node_at (fs w) parent with
         | Some Dir => (Ok tt, w)
         | Some (File _) => (Raise (Exn NotADirectoryError (msg_not_a_directory p)), w)
         | None => (Raise (Exn FileNotFoundError (msg_no_such_file p)), w)
         end.

(** [os.mkdir(p)]. *)
Definition mkdir (p : string) : M unit :=
  fun w =>
    if PyStr.is_empty p then (Raise (Exn FileNotFoundError (msg_no_such_file p)), w)
    else match node_at (fs w) p with
         | Some _ => (Raise (Exn FileExistsError (msg_file_exists p)), w)
         | None =>
             match check_parent p w with
             | (Ok _, _) => (Ok tt, with_fs w (<[p := Dir]> (fs w)))
             | (Raise e, _) => (Raise e, w)
             end
         end.

(** The directories [os.makedirs(p)] goes through: every prefix of [p] that
    ends before a separator, then [p] itself. *)
Fixpoint dir_prefixes (done : string) (rest : string) : list string :=
  match rest with
  | EmptyString => if PyStr.is_empty done then [] else [done]
  | String c r =>
      (if Ascii.eqb c OsPath.sep && negb (PyStr.is_empty done) then [done] else [])
      ++ dir_prefixes (done +:+ String c EmptyString) r
  end.

(** [os.makedirs] from the top: a directory above [p] is made when nothing
    is there, [p] itself is made in any case. *)
Fixpoint makedirs_from (qs : list string) : M unit :=
  match qs with
  | [] => ret tt
  | q :: rest =>
      match rest with
      | [] => mkdir q
      | _ :: _ =>
          ex <- path_exists q ;;
          (if ex then ret tt else mkdir q) ;;
          makedirs_from rest
      end
  end.

(** [os.makedirs(p)]. *)
Definition makedirs (p : string) : M unit :=
  if PyStr.is_empty p then raise (Exn FileNotFoundError (msg_no_such_file p))
  else makedirs_from (dir_prefixes EmptyString p).

(** [open(p, 'wb')] followed by writing [data]: an existing file is
    overwritten, a new one needs its directory. *)
Definition write_file (p : string) (data : string) : M unit :=
  fun w =>
    if PyStr.is_empty p then
      (Raise (Exn FileNotFoundError (msg_no_such_file p)), w)
    else
    match node_at (fs w) p with
    | Some Dir => (Raise (Exn IsADirectoryError (msg_is_a_directory p)), w)
    | Some (File _) => (Ok tt, with_fs w (<[p := File data]> (fs w)))
    | None =>
        if PyStr.endswith p "/" then
          (Raise (Exn IsADirectoryError (msg_is_a_directory p)), w)
        else
          match check_parent p w with
          | (Ok _, _) => (Ok tt, with_fs w (<[p := File data]> (fs w)))
          | (Raise e, _) => (Raise e, w)
          end
    end.

(** [open(p, 'rb').read()]. *)
Definition read_file (p : string) : M string :=
  fun w => match fs w !! p with
           | Some (File c) => (Ok c, w)
           | Some Dir => (Raise (Exn IsADirectoryError (msg_is_a_directory p)), w)
           | None => (Raise (Exn FileNotFoundError (msg_no_such_file p)), w)
           end.

(** [os.remove(p)]. *)
Definition os_remove (p : string) : M unit :=
  fun w => match fs w !! p with
           | Some (File _) => (Ok tt, with_fs w (delete p (fs w)))
           | Some Dir => (Raise (Exn IsADirectoryError (msg_is_a_directory p)), w)
           | None => (Raise (Exn FileNotFoundError (msg_no_such_file p)), w)
           end.

(** [urllib.request.urlretrieve(url, filename=path)]: the request is sent
    first, then the local file is opened and the body copied into it. *)
Definition urlretrieve (u path : string) : M unit :=
  fun w =>
    let w1 := log (EUrlretrieve u path) w in
    match net w u with
    | Served body => write_file path body w1
    | Failed info None => (Raise (Exn URLError info), w1)
    | Failed info (Some part) =>
        (write_file path part ;; raise (Exn URLError info)) w1
    end.

(** ** Archives and digests *)

(** What a member of an archive is: a file with its data, a directory, or
    a file whose data the reader cannot decode; [written] is what the
    reader had copied to the target when it gave up, [None] when it gives
    up before the target is opened. *)
Inductive entry :=
| Data (data : string)
| Directory
| Undecodable (written : option string).

(** A member of an archive as the reader yields it: its name inside the
    archive and what it is. *)
Record member := { member_name : string; member_entry : entry }.

(** The functions of the libraries that read file contents: the MD5 digest
    as a hexadecimal string ([hashlib]), and the readers of [zipfile] and
    [tarfile], which yield [None] on a file that is not such an archive. *)
Class Libraries := {
  md5_hex : string -> string;
  zip_members : string -> option (list member);
  tar_members : string -> option (list member)
}.

(** The parts of a member name that [zipfile] leaves out. *)
Definition invalid_path_part (x : string) : bool :=
  String.eqb x "" || String.eqb x "." || String.eqb x "..".

(** [zipfile]: the name of a member with the empty, [.] and [..] parts
    removed, which makes an absolute name relative. *)
Definition zip_arcname (filename : string) : string :=
  String.concat "/"
    (List.filter (fun x => negb (invalid_path_part x)) (PyStr.split "/" filename)).

(** Where [ZipFile.extractall(path)] puts a member. *)
Definition zip_targetpath (path filename : string) : string :=
  OsPath.normpath (OsPath.join path (zip_arcname filename)).

(** Where [TarFile.extractall(path)] puts a member when no extraction
    filter is set: the name is joined as it is. *)
Definition tar_targetpath (path name : string) : string :=
  PyStr.rstrip "/" (OsPath.join path name).

Section DownloadUtils.

Context `{L : Libraries}.

(** Modelled from the spec: [mirdata.utils.md5] is not part of the sources
    at hand; it computes the digest of the file at a path by reading it in
    chunks and yields a lowercase hexadecimal string.  Opening a path that
    is not a file raises. *)
Definition md5 (file_path : string) : M string :=
  c <- read_file file_path ;;
  ret (md5_hex c).

Definition msg_bad_archive (p : string) : string :=
  "File is not a readable archive: '" +:+ p +:+ "'".

(** [zipfile.ZipFile(path, 'r')] and [tarfile.open(path, 'r')]. *)
Definition open_archive (reader : string -> option (list member))
           (path : string) : M (list member) :=
  fun w =>
    let w1 := log (EOpenArchive path) w in
    match read_file path w1 with
    | (Ok c, w2) =>
        match reader c with
        | Some ms => (Ok ms, w2)
        | None => (Raise (Exn BadArchive (msg_bad_archive path)), w2)
        end
    | (Raise e, w2) => (Raise e, w2)
    end.

(** How a member that is a directory is made: [zipfile] makes it unless a
    directory is there, [tarfile] makes it and passes over
    [FileExistsError]. *)
Definition zip_makedir (targetpath : string) : M unit :=
  isdir <- path_isdir targetpath ;;
  if isdir then ret tt else mkdir targetpath.

Definition tar_makedir (targetpath : string) : M unit :=
  try_except (mkdir targetpath)
             (fun e => match exn_cls e with
                       | FileExistsError => ret tt
                       | _ => raise e
                       end).

(** Extraction of one member to [targetpath]: the directories above it are
    made, then a directory is made, or the target is opened for writing
    and the data of the file copied into it. *)
Definition extract_member (makedir : string -> M unit) (targetpath : string)
           (m : member) : M unit :=
  let upperdirs := OsPath.dirname targetpath in
  ex <- path_exists upperdirs ;;
  (if negb (PyStr.is_empty upperdirs) && negb ex then makedirs upperdirs else ret tt) ;;
  match member_entry m with
  | Directory => makedir targetpath
  | Data data => write_file targetpath data
  | Undecodable None => raise (Exn BadArchive (msg_bad_archive targetpath))
  | Undecodable (Some part) =>
      write_file targetpath part ;;
      raise (Exn BadArchive (msg_bad_archive targetpath))
  end.

(** [archive.extractall(path)], with the place of a member and the making
    of a directory as the library has them. *)
Definition extractall (targetpath_of : string -> string -> string)
           (makedir : string -> M unit)
           (ms : list member) (path : string) : M unit :=
  for_each ms (fun m => extract_member makedir (targetpath_of path (member_name m)) m).

(** ** The functions of [download_utils.py] *)

Definition nl : string := String "010"%char EmptyString.

(** [getattr(obj, 'keys')()]. *)
Definition py_keys (obj : pyarg) : M (list string) :=
  match obj with
  | PyDict ks => ret ks
  | _ => raise (Exn AttributeError
                 ("'" +:+ type_name obj +:+ "' object has no attribute 'keys'"))
  end.

(** [repr] of a list of strings. *)
Definition py_repr_list (l : list string) : string :=
  "[" +:+ String.concat ", " (map (fun k => "'" +:+ k +:+ "'") l) +:+ "]".

Definition msg_type_error (partial_download : pyarg) : string :=
  "partial_download should be a list of keys to access the elements of the download dictionary, "
  +:+ "but is a <class '" +:+ type_name partial_download +:+ "'> element".

(** The [format] call of lines 67-68 applies to the ['.'] only, so that both
    placeholders stay in the message. *)
Definition msg_key_error : string :=
  "The key {} in partial_download should be part of the REMOTES object keys ({})"
  +:+ ".".

Definition msg_start_download (files : list string) (save_dir : string) : string :=
  nl +:+ "                Starting to download the list of files "
  +:+ py_repr_list files +:+ " to folder " +:+ save_dir +:+ nl +:+ "            ".

Definition msg_download_failed (u : string) : string :=
  nl +:+ "                            mirdata failed to download the dataset from "
  +:+ u +:+ "!" +:+ nl
  +:+ "                            Please try again in a few minutes." +:+ nl
  +:+ "                            If this error persists, please raise an issue at" +:+ nl
  +:+ "                            https://github.com/mir-dataset-loaders/mirdata," +:+ nl
  +:+ "                            and tag it with 'broken-link'." +:+ nl
  +:+ "                            ".

Definition msg_checksum (download_path digest expected : string) : string :=
  download_path +:+ " has an MD5 checksum (" +:+ digest +:+ ") "
  +:+ "differing from expected (" +:+ expected +:+ "), "
  +:+ "file may be corrupted.".

(** [download_from_remote(remote, save_dir, force_overwrite)], lines 120-180.
    The progress bar only reports and is left out. *)
Definition download_dir_of (remote : RemoteFileMetadata) (save_dir : string) : string :=
  match destination_dir remote with
  | None => save_dir
  | Some d => OsPath.join save_dir d
  end.

Definition download_path_of (remote : RemoteFileMetadata) (save_dir : string) : string :=
  OsPath.join (download_dir_of remote save_dir) (filename remote).

Definition download_from_remote (remote : RemoteFileMetadata) (save_dir : string)
           (force_overwrite : bool) : M string :=
  let download_dir := download_dir_of remote save_dir in
  ex <- path_exists download_dir ;;
  (if negb ex then makedirs download_dir else ret tt) ;;
  let download_path := OsPath.join download_dir (filename remote) in
  ex <- path_exists download_path ;;
  (if negb ex || force_overwrite then
     try_except (urlretrieve (url remote) download_path)
                (fun e => print (msg_download_failed (url remote)) ;; raise e)
   else ret tt) ;;
  digest <- md5 download_path ;;
  if negb (String.eqb (checksum remote) digest) then
    raise (Exn IOError (msg_checksum download_path digest (checksum remote)))
  else ret download_path.

(** [unzip(zip_path, cleanup)], lines 200-212. *)
Definition unzip (zip_path : string) (cleanup : bool) : M unit :=
  zfile <- open_archive zip_members zip_path ;;
  extractall zip_targetpath zip_makedir zfile (OsPath.dirname zip_path) ;;
  if cleanup then os_remove zip_path else ret tt.

(** [untar(tar_path, cleanup)], lines 228-239. *)
Definition untar (tar_path : string) (cleanup : bool) : M unit :=
  tfile <- open_archive tar_members tar_path ;;
  extractall tar_targetpath tar_makedir tfile (OsPath.dirname tar_path) ;;
  if cleanup then os_remove tar_path else ret tt.

(** [download_zip_file], lines 183-197, and [download_tar_file], lines 215-225. *)
Definition download_zip_file (zip_remote : RemoteFileMetadata) (save_dir : string)
           (force_overwrite cleanup : bool) : M unit :=
  zip_download_path <- download_from_remote zip_remote save_dir force_overwrite ;;
  unzip zip_download_path cleanup.

Definition download_tar_file (tar_remote : RemoteFileMetadata) (save_dir : string)
           (force_overwrite cleanup : bool) : M unit :=
  tar_download_path <- download_from_remote tar_remote save_dir force_overwrite ;;
  untar tar_download_path cleanup.

(** The tests of lines 87-93 on the extension of a URL. *)
Definition extension_group (extension : string) : group :=
  if PyStr.contains ".zip" extension then Zip
  else if PyStr.contains ".tar.gz" extension || PyStr.contains ".tar" extension then Tar
  else Plain.

(** The group of a remote file: line 86 followed by the tests above. *)
Definition download_group (r : RemoteFileMetadata) : group :=
  let extension := snd (OsPath.splitext (url r)) in
  extension_group extension.

(** [download[k]]. *)
Definition dict_get (download : remotes) (k : string) : M RemoteFileMetadata :=
  match dict_lookup download k with
  | Some r => ret r
  | None => raise (Exn KeyError ("'" +:+ k +:+ "'"))
  end.

(** The loop of lines 85-93 over [objs_to_download], with the three lists
    as they stand. *)
Fixpoint partition_downloads (download : remotes) (objs_to_download : list string)
         (zip_downloads tar_downloads file_downloads : list RemoteFileMetadata)
  : M (list RemoteFileMetadata * list RemoteFileMetadata * list RemoteFileMetadata) :=
  match objs_to_download with
  | [] => ret (zip_downloads, tar_downloads, file_downloads)
  | k :: rest =>
      r <- dict_get download k ;;
      match download_group r with
      | Zip => partition_downloads download rest (zip_downloads ++ [r]) tar_downloads file_downloads
      | Tar => partition_downloads download rest zip_downloads (tar_downloads ++ [r]) file_downloads
      | Plain => partition_downloads download rest zip_downloads tar_downloads (file_downloads ++ [r])
      end
  end.

(** The loop of lines 64-69 over the keys of [partial_download]. *)
Fixpoint check_keys (download : remotes) (keys : list string) : M unit :=
  match keys with
  | [] => ret tt
  | key :: rest =>
      if negb (in_keys key download) then raise (Exn KeyError msg_key_error)
      else check_keys download rest
  end.

(** Lines 81-105: what follows the start message.  The three lists are
    lists, never [None], so the tests of lines 95, 99 and 103 always pass. *)
Definition download_all (download : remotes) (objs_to_download : list string)
           (save_dir : string) (force_overwrite cleanup : bool) : M unit :=
  groups <- partition_downloads download objs_to_download [] [] [] ;;
  let '(zip_downloads, tar_downloads, file_downloads) := groups in
  for_each zip_downloads
    (fun zip_download => download_zip_file zip_download save_dir force_overwrite cleanup) ;;
  for_each tar_downloads
    (fun tar_download => download_tar_file tar_download save_dir force_overwrite cleanup) ;;
  for_each file_downloads
    (fun file_download =>
       download_from_remote file_download save_dir force_overwrite ;; ret tt).

(** [downloader(save_dir, download, partial_download, info_message,
    force_overwrite, cleanup)], lines 25-108. *)
Definition downloader (save_dir : string) (download : option remotes)
           (partial_download : pyarg) (info_message : option string)
           (force_overwrite cleanup : bool) : M unit :=
  ex <- path_exists save_dir ;;
  (if negb ex then makedirs save_dir else ret tt) ;;
  match download with
  | Some download =>
      objs_to_download <-
        match partial_download with
        | PyNone => ret (dict_keys download)
        | PyList keys => check_keys download keys ;; ret keys
        | _ => raise (Exn TypeError (msg_type_error partial_download))
        end ;;
      files <- py_keys partial_download ;;
      print (msg_start_download files save_dir) ;;
      download_all download objs_to_download save_dir force_overwrite cleanup
  | None =>
      match info_message with
      | Some msg => print msg
      | None => ret tt
      end
  end.

End DownloadUtils.


(** ** The progress bar *)

(** The two attributes of the [tqdm] bar that [DownloadProgressBar.update_to]
    reads and writes: the counter [n] and the [total]. *)
Record progress_bar := { bar_n : Z; bar_total : option Z }.

(** [tqdm.update(k)]: the counter moves by [k]. *)
Definition tqdm_update (k : Z) (self : progress_bar) : progress_bar :=
  {| bar_n := bar_n self + k; bar_total := bar_total self |}.

(** [update_to(b, bsize, tsize)], lines 114-117. *)
Definition update_to (b bsize : Z) (tsize : option Z) (self : progress_bar)
  : progress_bar :=
  let self :=
    match tsize with
    | Some t => {| bar_n := bar_n self; bar_total := Some t |}
    | None => self
    end in
  tqdm_update (b * bsize - bar_n self) self.

(** The calls a transfer makes to its report hook, in turn. *)
Definition report_all (reports : list (Z * Z * option Z)) (self : progress_bar)
  : progress_bar :=
  fold_left (fun t r => let '(b, bsize, tsize) := r in update_to b bsize tsize t)
            reports self.


(** ** Fixtures: libraries and worlds to run the functions on *)

Definition fixture_members : list member :=
  [ {| member_name := "data/x.csv"; member_entry := Data "1,2" |} ].

Definition fixture_damaged : list member :=
  [ {| member_name := "ok.txt"; member_entry := Data "fine" |};
    {| member_name := "bad.bin"; member_entry := Undecodable None |} ].

(** An archive with a directory, and one whose member climbs out of the
    directory it is extracted into. *)
Definition fixture_tree : list member :=
  [ {| member_name := "data/"; member_entry := Directory |};
    {| member_name := "data/x.csv"; member_entry := Data "1,2" |} ].

Definition fixture_climbing : list member :=
  [ {| member_name := "../../escape.txt"; member_entry := Data "out" |} ].

(** An archive whose member has an absolute name. *)
Definition fixture_absolute : list member :=
  [ {| member_name := "/outside/escape.txt"; member_entry := Data "out" |} ].

Definition fixture_reader (magic : string) (c : string) : option (list member) :=
  if String.eqb c (magic +:+ "good") then Some fixture_members
  else if String.eqb c (magic +:+ "damaged") then Some fixture_damaged
  else if String.eqb c (magic +:+ "tree") then Some fixture_tree
  else if String.eqb c (magic +:+ "climbing") then Some fixture_climbing
  else if String.eqb c (magic +:+ "absolute") then Some fixture_absolute
  else None.

#[export] Instance fixture_libs : Libraries := {|
  md5_hex := fun c => "md5-of-" +:+ c;
  zip_members := fixture_reader "PK:";
  tar_members := fixture_reader "ustar:"
|}.

Definition fixture_net (u : string) : response :=
  if String.eqb u "http://x/a.zip" then Served "PK:good"
  else if String.eqb u "http://x/a.tar.gz" then Served "ustar:good"
  else if String.eqb u "http://x/part" then Failed "connection reset" (Some "PK:go")
  else if String.eqb u "http://x/down" then
    Failed "<urlopen error [Errno 111] Connection refused>" None
  else Failed "HTTP Error 404: Not Found" None.

Definition empty_world : world :=
  {| fs := ∅; net := fixture_net; events := [] |}.

Definition remote_zip : RemoteFileMetadata :=
  {| filename := "a.zip"; url := "http://x/a.zip";
     checksum := "md5-of-PK:good"; destination_dir := None |}.

Definition remote_targz : RemoteFileMetadata :=
  {| filename := "a.tar.gz"; url := "http://x/a.tar.gz";
     checksum := "md5-of-ustar:good"; destination_dir := None |}.

Definition remote_missing : RemoteFileMetadata :=
  {| filename := "gone.zip"; url := "http://x/gone.zip";
     checksum := "0"; destination_dir := Some "sub" |}.

(** A remote file on a server that refuses the connection, and one whose
    checksum is not that of the file the server has. *)
Definition remote_unreachable : RemoteFileMetadata :=
  {| filename := "d.zip"; url := "http://x/down";
     checksum := "0"; destination_dir := None |}.

Definition remote_stale : RemoteFileMetadata :=
  {| filename := "a.zip"; url := "http://x/a.zip";
     checksum := "md5-of-PK:older"; destination_dir := None |}.

Definition world_with (files : list (string * node)) : world :=
  {| fs := list_to_map files; net := fixture_net; events := [] |}.

(** An archive saved below [save_root/sub], and a file that is not what
    its checksum says. *)
Definition world_archive : world :=
  world_with [("save_root", Dir); ("save_root/sub", Dir);
              ("save_root/sub/archive.zip", File "PK:good")].

Definition world_damaged : world :=
  world_with [("save_root", Dir); ("save_root/sub", Dir);
              ("save_root/sub/archive.zip", File "PK:damaged")].


(** Archives with a climbing member, and a regular file where a directory
    is asked for. *)
Definition world_climbing : world :=
  world_with [("save_root", Dir); ("save_root/sub", Dir);
              ("save_root/sub/archive.zip", File "PK:climbing");
              ("save_root/sub/archive.tar", File "ustar:climbing")].

Definition world_absolute : world :=
  world_with [("save_root", Dir); ("save_root/sub", Dir);
              ("save_root/sub/archive.zip", File "PK:absolute");
              ("save_root/sub/archive.tar", File "ustar:absolute")].

Definition world_regular_file : world :=
  world_with [("f", File "not a directory")].

(** A file left by a transfer that broke off, and a remote file served
    from a server that breaks off. *)
Definition remote_part : RemoteFileMetadata :=
  {| filename := "p.zip"; url := "http://x/part";
     checksum := "md5-of-PK:good"; destination_dir := None |}.

Definition remote_sub : RemoteFileMetadata :=
  {| filename := "a.zip"; url := "http://x/a.zip";
     checksum := "md5-of-PK:good"; destination_dir := Some "sub" |}.

(** ** Notions the properties are stated with *)

(** The idiom [if not os.path.exists(p): os.makedirs(p)] of lines 53-54 and
    144-145. *)
Definition ensure (p : string) : M unit :=
  ex <- path_exists p ;;
  if negb ex then makedirs p else ret tt.

(** The idiom does not raise on [w]: [p] is there or can be made. *)
Definition made (p : string) (w : world) : Prop := fst (ensure p w) = Ok tt.

Definition madeb (p : string) (w : world) : bool :=
  match fst (ensure p w) with
  | Ok _ => true
  | Raise _ => false
  end.

(** After the idiom, [p] is a directory. *)
Definition dir_ready (p : string) (w : world) : Prop :=
  made p w /\ node_at (fs (snd (ensure p w))) p = Some Dir.

(** A file name is a name below the download directory: not empty, not an
    absolute path. *)
Definition well_named (r : RemoteFileMetadata) : Prop :=
  PyStr.is_empty (filename r) = false /\ PyStr.startswith (filename r) "/" = false.

(** A name of one part: not empty, without separator. *)
Definition simple_name (f : string) : Prop :=
  PyStr.is_empty f = false /\ PyStr.rfind OsPath.sep f = (-1)%Z.




(** [partial_download] passes lines 57-70: it is [None], or a list of keys
    of [download]. *)
Definition validated (download : remotes) (partial_download : pyarg) : Prop :=
  partial_download = PyNone \/
  exists keys, partial_download = PyList keys /\
               forall k, In k keys -> in_keys k download = true.

(** The remote files of the keys [objs] that fall into group [g], in the
    order of [objs]. *)
Fixpoint of_group (g : group) (download : remotes) (objs : list string)
  : list RemoteFileMetadata :=
  match objs with
  | [] => []
  | k :: rest =>
      match dict_lookup download k with
      | Some r =>
          (if match download_group r, g with
              | Zip, Zip | Tar, Tar | Plain, Plain => true
              | _, _ => false
              end then [r] else []) ++ of_group g download rest
      | None => of_group g download rest
      end
  end.

(** The two halves of [download_from_remote] once the download directory
    is there: lines 148-171 and lines 173-180. *)
Definition transfer_step `{L : Libraries} (remote : RemoteFileMetadata)
           (download_path : string) (force_overwrite : bool) : M unit :=
  ex <- path_exists download_path ;;
  if negb ex || force_overwrite then
    try_except (urlretrieve (url remote) download_path)
               (fun e => print (msg_download_failed (url remote)) ;; raise e)
  else ret tt.

Definition verify_step `{L : Libraries} (remote : RemoteFileMetadata)
           (download_path : string) : M string :=
  digest <- md5 download_path ;;
  if negb (String.eqb (checksum remote) digest) then
    raise (Exn IOError (msg_checksum download_path digest (checksum remote)))
  else ret download_path.

(** What [unzip] and [untar] share, with the reader of the archive and the
    place of a member as parameters. *)
Definition unpack `{L : Libraries} (reader : string -> option (list member))
           (targetpath_of : string -> string -> string)
           (makedir : string -> M unit)
           (path : string) (cleanup : bool) : M unit :=
  archive <- open_archive reader path ;;
  extractall targetpath_of makedir archive (OsPath.dirname path) ;;
  if cleanup then os_remove path else ret tt.

(** There is a file at [q]. *)
Definition is_file (m : gmap string node) (q : string) : Prop :=
  exists c, m !! q = Some (File c).

(** [m'] is [m] with directories added where nothing was. *)
Definition dirs_added (m m' : gmap string node) : Prop :=
  (forall x n, m !! x = Some n -> m' !! x = Some n)
  /\ (forall x c, m' !! x = Some (File c) -> m !! x = Some (File c)).

(** From [m] to [m'] no file and no directory went away. *)
Definition grows (m m' : gmap string node) : Prop :=
  (forall q, is_file m q -> is_file m' q)
  /\ (forall q, m !! q = Some Dir -> m' !! q = Some Dir).

(** * Properties *)

(** ** The library models on examples *)

Example splitext_zip : OsPath.splitext "http://x/a.zip" = ("http://x/a", ".zip").
Proof. reflexivity. Qed.
Example splitext_targz : OsPath.splitext "http://x/a.tar.gz" = ("http://x/a.tar", ".gz").
Proof. reflexivity. Qed.
Example splitext_hidden : OsPath.splitext "/d/.bashrc" = ("/d/.bashrc", "").
Proof. reflexivity. Qed.
Example splitext_dots : OsPath.splitext "/d.e/..x.y" = ("/d.e/..x", ".y").
Proof. reflexivity. Qed.
Example dirname_ex : OsPath.dirname "save_root/sub/archive.zip" = "save_root/sub".
Proof. reflexivity. Qed.
Example dirname_root : OsPath.dirname "/a" = "/".
Proof. reflexivity. Qed.
Example dirname_rel : OsPath.dirname "a.zip" = "".
Proof. reflexivity. Qed.
Example dirname_dbl : OsPath.dirname "a//b" = "a".
Proof. reflexivity. Qed.
Example join_ex : OsPath.join "a" "b" = "a/b" /\ OsPath.join "a/" "b" = "a/b"
  /\ OsPath.join "a" "/b" = "/b" /\ OsPath.join "" "b" = "b" /\ OsPath.join "a" "" = "a/".
Proof. repeat split; reflexivity. Qed.

Example normpath_ex :
  map OsPath.normpath ["a/./b"; "a//b/"; "/a/../b"; "../a"; "/.."; "//a"; "///a"; "a/.."; ""]
  = ["a/b"; "a/b"; "/b"; "../a"; "/"; "//a"; "/a"; "."; "."].
Proof. reflexivity. Qed.
Example split_ex : PyStr.split "/" "a//b/" = ["a"; ""; "b"; ""].
Proof. reflexivity. Qed.
Example zip_targetpath_ex :
  map (zip_targetpath "save_root/sub") ["data/x.csv"; "data/"; "../../escape.txt"; "/etc/x"]
  = ["save_root/sub/data/x.csv"; "save_root/sub/data";
     "save_root/sub/escape.txt"; "save_root/sub/etc/x"].
Proof. reflexivity. Qed.
Example tar_targetpath_ex :
  map (tar_targetpath "save_root/sub") ["data/x.csv"; "data/"; "../../escape.txt"; "/etc/x"]
  = ["save_root/sub/data/x.csv"; "save_root/sub/data";
     "save_root/sub/../../escape.txt"; "/etc/x"].
Proof. reflexivity. Qed.


(** ** Strings *)

Section StringFacts.

Local Open Scope nat_scope.

Lemma app_str_nil_l (b : string) : "" +:+ b = b.
Proof. reflexivity. Qed.

Lemma app_str_cons (x : ascii) (a b : string) :
  String x a +:+ b = String x (a +:+ b).
Proof. reflexivity. Qed.

Lemma length_app_str (a b : string) :
  String.length (a +:+ b) = String.length a + String.length b.
Proof.
  induction a as [|c a IH]; [reflexivity|].
  rewrite app_str_cons. simpl String.length. now rewrite IH.
Qed.

Lemma app_str_nil_r (a : string) : a +:+ "" = a.
Proof.
  induction a as [|c a IH]; [reflexivity|]. now rewrite app_str_cons, IH.
Qed.

Lemma app_str_assoc (a b c : string) : (a +:+ b) +:+ c = a +:+ (b +:+ c).
Proof.
  induction a as [|x a IH]; [reflexivity|]. now rewrite !app_str_cons, IH.
Qed.

Lemma rfind_bounds (c : ascii) (s : string) :
  (-1 <= PyStr.rfind c s < Z.of_nat (String.length s))%Z.
Proof.
  induction s as [|a r IH]; simpl PyStr.rfind; simpl String.length.
  - lia.
  - destruct (Z.leb_spec 0 (PyStr.rfind c r)); [lia|].
    destruct (Ascii.eqb a c); lia.
Qed.

Lemma rfind_app (c : ascii) (a b : string) :
  PyStr.rfind c (a +:+ b) =
  if (0 <=? PyStr.rfind c b)%Z
  then (Z.of_nat (String.length a) + PyStr.rfind c b)%Z
  else PyStr.rfind c a.
Proof.
  induction a as [|x a IH].
  - rewrite app_str_nil_l. simpl.
    destruct (Z.leb_spec 0 (PyStr.rfind c b)); [lia|].
    pose proof (rfind_bounds c b). lia.
  - rewrite app_str_cons. simpl PyStr.rfind. simpl String.length. rewrite IH.
    destruct (Z.leb_spec 0 (PyStr.rfind c b)).
    + destruct (Z.leb_spec 0 (Z.of_nat (String.length a) + PyStr.rfind c b)); lia.
    + reflexivity.
Qed.

Lemma slice_to_app (a b : string) (k : nat) :
  PyStr.slice_to (a +:+ b) (String.length a + k) = a +:+ PyStr.slice_to b k.
Proof.
  induction a as [|x a IH]; [reflexivity|].
  rewrite !app_str_cons. simpl. now rewrite IH.
Qed.

Lemma slice_from_app (a b : string) (k : nat) :
  PyStr.slice_from (a +:+ b) (String.length a + k) = PyStr.slice_from b k.
Proof.
  induction a as [|x a IH]; [reflexivity|].
  rewrite app_str_cons. simpl. exact IH.
Qed.

Lemma prefix_app (a b : string) : String.prefix a (a +:+ b) = true.
Proof.
  induction a as [|x a IH].
  - rewrite app_str_nil_l. now destruct b.
  - rewrite app_str_cons. simpl.
    destruct (ascii_dec x x) as [_|N]; [exact IH | now destruct N].
Qed.

Lemma contains_prefix (sub s : string) :
  String.prefix sub s = true -> PyStr.contains sub s = true.
Proof. intros H. destruct s; cbn [PyStr.contains]; rewrite H; reflexivity. Qed.

Lemma contains_app_r (sub pre s : string) :
  PyStr.contains sub s = true -> PyStr.contains sub (pre +:+ s) = true.
Proof.
  intros H. induction pre as [|x pre IH]; [exact H|].
  rewrite app_str_cons. cbn [PyStr.contains]. rewrite IH. apply orb_true_r.
Qed.

Lemma contains_head (sub post : string) : PyStr.contains sub (sub +:+ post) = true.
Proof. apply contains_prefix, prefix_app. Qed.

(** [sub in pre + sub + post]. *)
Lemma contains_app (sub pre post : string) :
  PyStr.contains sub (pre +:+ sub +:+ post) = true.
Proof.
  induction pre as [|x pre IH].
  - rewrite app_str_nil_l. apply contains_prefix, prefix_app.
  - rewrite app_str_cons. cbn [PyStr.contains]. rewrite IH. apply orb_true_r.
Qed.

End StringFacts.

(** ** Classification of a URL *)

Section Classification.

Context `{L : Libraries}.

Local Open Scope nat_scope.

Lemma char_at_app (a b : string) (k : nat) :
  PyStr.char_at (a +:+ b) (String.length a + k) = PyStr.char_at b k.
Proof. unfold PyStr.char_at. now rewrite slice_from_app. Qed.

(** On [stem.tar.gz] the scan of the file name stops at the [t] of [tar] at
    the latest, and splits at the last dot. *)
Lemma splitext_scan_tar_gz (stem : string) (n : nat) :
  forall filenameIndex steps,
    filenameIndex + n = String.length stem + 1 ->
    n < steps ->
    OsPath.splitext_scan (stem +:+ ".tar.gz") (String.length stem + 4) steps filenameIndex
    = (stem +:+ ".tar", ".gz"%string).
Proof.
  induction n as [|n IH]; intros fi steps Hfi Hlt;
    (destruct steps as [|steps]; [lia|]); cbn [OsPath.splitext_scan].
  - replace fi with (String.length stem + 1) by lia.
    rewrite char_at_app. cbn [negb]. simpl PyStr.char_at.
    change (negb ("t" =? String OsPath.extsep "")%string) with true. cbn iota.
    now rewrite slice_to_app, slice_from_app.
  - destruct (negb _).
    + now rewrite slice_to_app, slice_from_app.
    + apply IH; lia.
Qed.

Lemma splitext_tar_gz (stem : string) :
  OsPath.splitext (stem +:+ ".tar.gz") = (stem +:+ ".tar", ".gz"%string).
Proof.
  unfold OsPath.splitext. rewrite !rfind_app.
  change (PyStr.rfind OsPath.sep ".tar.gz") with (-1)%Z.
  change (PyStr.rfind OsPath.extsep ".tar.gz") with 4%Z.
  cbn [Z.leb Z.compare].
  pose proof (rfind_bounds OsPath.sep stem) as Hb.
  destruct (Z.ltb_spec (PyStr.rfind OsPath.sep stem)
                       (Z.of_nat (String.length stem) + 4)); [|lia].
  replace (Z.to_nat (Z.of_nat (String.length stem) + 4)) with (String.length stem + 4) by lia.
  apply splitext_scan_tar_gz
    with (n := String.length stem + 1 - Z.to_nat (PyStr.rfind OsPath.sep stem + 1)); lia.
Qed.

(** The priority rule of lines 87-93, on the extension that line 86 takes
    from the URL. *)
Lemma download_group_rule (r : RemoteFileMetadata) :
  let extension := snd (OsPath.splitext (url r)) in
  download_group r =
  if PyStr.contains ".zip" extension then Zip
  else if PyStr.contains ".tar.gz" extension || PyStr.contains ".tar" extension then Tar
  else Plain.
Proof. reflexivity. Qed.

(** C1, as the code has it: a URL that ends in [.tar.gz] has the extension
    [.gz], which contains neither [.zip] nor [.tar.gz] nor [.tar]; the remote
    file goes to the plain group, not to the tar group. *)
Theorem tar_gz_url_is_plain (stem f c : string) (d : option string) :
  download_group {| filename := f; url := stem +:+ ".tar.gz";
                    checksum := c; destination_dir := d |} = Plain.
Proof.
  unfold download_group. cbn [url]. rewrite splitext_tar_gz. reflexivity.
Qed.

End Classification.

(** ** Paths *)

Section PathFacts.

Local Open Scope nat_scope.

Lemma endswith_cons (a : ascii) (r : string) :
  r <> ""%string ->
  PyStr.endswith (String a r) "/" = PyStr.endswith r "/".
Proof.
  intros Hr. cbn [PyStr.endswith].
  destruct r as [|b r]; [now destruct Hr|].
  replace (String a (String b r) =? "/")%string with false; [reflexivity|].
  symmetry. apply String.eqb_neq. congruence.
Qed.

Lemma endswith_single (a : ascii) :
  PyStr.endswith (String a "") "/" = Ascii.eqb a "/".
Proof.
  cbn [PyStr.endswith]. rewrite orb_false_r.
  destruct (Ascii.eqb_spec a "/") as [->|N]; [reflexivity|].
  apply String.eqb_neq. congruence.
Qed.

Lemma rstrip_sep_app (d : string) :
  d <> ""%string -> PyStr.endswith d "/" = false ->
  PyStr.rstrip OsPath.sep (d +:+ "/") = d.
Proof.
  induction d as [|a r IH]; intros Hne He; [now destruct Hne|].
  rewrite app_str_cons. cbn [PyStr.rstrip].
  destruct r as [|b r].
  - rewrite endswith_single in He. rewrite app_str_nil_l.
    change (PyStr.rstrip OsPath.sep "/") with ""%string.
    unfold OsPath.sep. rewrite He. reflexivity.
  - rewrite endswith_cons in He by discriminate.
    rewrite IH by (congruence || exact He). reflexivity.
Qed.

Lemma all_char_sep_app (d x : string) :
  d <> ""%string -> PyStr.endswith d "/" = false ->
  PyStr.all_char OsPath.sep (d +:+ x) = false.
Proof.
  induction d as [|a r IH]; intros Hne He; [now destruct Hne|].
  rewrite app_str_cons. cbn [PyStr.all_char].
  destruct r as [|b r].
  - rewrite endswith_single in He. unfold OsPath.sep. now rewrite He.
  - rewrite endswith_cons in He by discriminate.
    rewrite IH by (congruence || exact He). apply andb_false_r.
Qed.

(** A name without separator does not begin with one. *)
Lemma no_sep_not_absolute (f : string) :
  PyStr.rfind OsPath.sep f = (-1)%Z -> PyStr.startswith f "/" = false.
Proof.
  intros Hf. unfold PyStr.startswith.
  destruct f as [|a f]; [reflexivity|].
  cbn [PyStr.rfind] in Hf. cbn [String.prefix].
  pose proof (rfind_bounds OsPath.sep f).
  destruct (Z.leb_spec 0 (PyStr.rfind OsPath.sep f)); [lia|].
  destruct (Ascii.eqb_spec a OsPath.sep) as [->|N]; [discriminate|].
  destruct (ascii_dec "/" a) as [<-|]; [now destruct N | reflexivity].
Qed.

(** [os.path.join(d, f)] puts a separator between a directory that is not
    empty and does not end in one, and a relative name. *)
Lemma join_plain (d f : string) :
  d <> ""%string -> PyStr.endswith d "/" = false ->
  PyStr.startswith f "/" = false ->
  OsPath.join d f = d +:+ "/" +:+ f.
Proof.
  intros Hne He Hf. unfold OsPath.join.
  change (String OsPath.sep "") with "/"%string.
  rewrite He, Hf. now destruct d.
Qed.

(** [os.path.dirname(os.path.join(d, f))] is [d] for a directory that is
    not empty and does not end in a separator, and a name without
    separator. *)
Lemma dirname_join (d f : string) :
  d <> ""%string -> PyStr.endswith d "/" = false ->
  PyStr.rfind OsPath.sep f = (-1)%Z ->
  OsPath.dirname (OsPath.join d f) = d.
Proof.
  intros Hne He Hf.
  rewrite join_plain by (assumption || now apply no_sep_not_absolute).
  unfold OsPath.dirname. rewrite rfind_app.
  replace (PyStr.rfind OsPath.sep ("/" +:+ f)) with 0%Z
    by (rewrite app_str_cons, app_str_nil_l; cbn [PyStr.rfind]; now rewrite Hf).
  cbn [Z.leb Z.compare].
  replace (Z.to_nat (Z.of_nat (String.length d) + 0 + 1)) with (String.length d + 1)%nat
    by lia.
  rewrite slice_to_app.
  replace (PyStr.slice_to ("/" +:+ f) 1) with "/"%string
    by (rewrite app_str_cons, app_str_nil_l; cbn [PyStr.slice_to]; now destruct f).
  rewrite all_char_sep_app by assumption.
  replace (PyStr.is_empty (d +:+ "/")) with false by now destruct d.
  cbn [negb andb]. now apply rstrip_sep_app.
Qed.

Lemma join_longer (a b : string) :
  PyStr.is_empty b = false -> PyStr.startswith b "/" = false ->
  (String.length a < String.length (OsPath.join a b))%nat.
Proof.
  intros Hne Hrel. unfold OsPath.join.
  change (String OsPath.sep "") with "/"%string. rewrite Hrel.
  assert (0 < String.length b)%nat by (destruct b; [discriminate | simpl; lia]).
  destruct (_ || _); rewrite !length_app_str; simpl String.length; lia.
Qed.

(** A name without separator, joined to a directory, does not end in a
    separator. *)
Lemma endswith_app_no_sep (d f : string) :
  PyStr.is_empty f = false -> PyStr.rfind OsPath.sep f = (-1)%Z ->
  PyStr.endswith (d +:+ f) "/" = false.
Proof.
  intros Hne Hf.
  assert (forall g, PyStr.is_empty g = false -> PyStr.rfind OsPath.sep g = (-1)%Z ->
                    PyStr.endswith g "/" = false) as Hg.
  { induction g as [|a g IH]; [discriminate|]. intros _ Hr.
    cbn [PyStr.rfind] in Hr. pose proof (rfind_bounds OsPath.sep g).
    destruct (Z.leb_spec 0 (PyStr.rfind OsPath.sep g)); [lia|].
    destruct (Ascii.eqb_spec a OsPath.sep) as [->|N]; [discriminate|].
    destruct g as [|b g].
    - rewrite endswith_single. now apply Ascii.eqb_neq.
    - rewrite endswith_cons by discriminate. apply IH; [reflexivity | lia]. }
  induction d as [|a d IH]; [rewrite app_str_nil_l; now apply Hg|].
  rewrite app_str_cons. rewrite endswith_cons; [exact IH|].
  destruct d; [rewrite app_str_nil_l; now destruct f | discriminate].
Qed.

End PathFacts.

(** ** The file system *)

Section FileSystem.

Implicit Types (m : gmap string node) (w : world).

Lemma with_fs_id w : with_fs w (fs w) = w.
Proof. now destruct w. Qed.

Lemma dirs_added_refl m : dirs_added m m.
Proof. split; auto. Qed.

Lemma dirs_added_trans m1 m2 m3 :
  dirs_added m1 m2 -> dirs_added m2 m3 -> dirs_added m1 m3.
Proof. intros [A1 A2] [B1 B2]. split; eauto. Qed.

Lemma dirs_added_insert m p : m !! p = None -> dirs_added m (<[p := Dir]> m).
Proof.
  intros H. split.
  - intros x n Hx. rewrite lookup_insert_ne; [exact Hx | congruence].
  - intros x c Hx. destruct (decide (p = x)) as [->|N].
    + rewrite lookup_insert_eq in Hx. discriminate.
    + now rewrite lookup_insert_ne in Hx.
Qed.

Lemma grows_refl m : grows m m.
Proof. split; auto. Qed.

Lemma grows_trans m1 m2 m3 : grows m1 m2 -> grows m2 m3 -> grows m1 m3.
Proof. intros [A1 A2] [B1 B2]. split; eauto. Qed.

Lemma dirs_added_grows m m' : dirs_added m m' -> grows m m'.
Proof.
  intros [H1 H2]. split; [|auto]. intros q [c Hc]. exists c. auto.
Qed.

Lemma is_empty_false (p : string) : PyStr.is_empty p = false <-> p <> "".
Proof. destruct p; split; (discriminate || congruence || reflexivity). Qed.

Lemma node_at_raw m p n : p <> "" -> m !! p = Some n -> node_at m p = Some n.
Proof.
  intros Hne H. unfold node_at. apply is_empty_false in Hne. now rewrite Hne, H.
Qed.

Lemma node_at_none m p : p <> "" -> node_at m p = None -> m !! p = None.
Proof.
  intros Hne. unfold node_at. apply is_empty_false in Hne. rewrite Hne.
  destruct (m !! p); [discriminate | reflexivity].
Qed.

Lemma node_at_file m p c : node_at m p = Some (File c) -> m !! p = Some (File c).
Proof.
  unfold node_at. destruct (PyStr.is_empty p); [discriminate|].
  destruct (m !! p); [now intros [= ->]|].
  destruct (is_root p); discriminate.
Qed.

Lemma exists_in_raw m p n : p <> "" -> m !! p = Some n -> exists_in m p = true.
Proof. intros Hne H. unfold exists_in. now rewrite (node_at_raw _ _ _ Hne H). Qed.

Lemma exists_in_false m p : p <> "" -> exists_in m p = false -> m !! p = None.
Proof.
  intros Hne. unfold exists_in. destruct (node_at m p) eqn:E; [discriminate|].
  intros _. now apply node_at_none.
Qed.

Lemma exists_in_nonempty m p : exists_in m p = true -> p <> "".
Proof. intros H ->. discriminate. Qed.

(** What is there stays there when files and directories are kept. *)
Lemma exists_in_grows m m' p :
  grows m m' -> exists_in m p = true -> exists_in m' p = true.
Proof.
  intros [G1 G2]. unfold exists_in, node_at.
  destruct (PyStr.is_empty p); [discriminate|].
  destruct (m !! p) as [[|c]|] eqn:E.
  - now rewrite (G2 _ E).
  - destruct (G1 p (ex_intro _ c E)) as [c' ->]. reflexivity.
  - destruct (is_root p); [|discriminate]. now destruct (m' !! p).
Qed.

(** [os.mkdir] raises and changes nothing, or makes a directory where
    nothing was. *)
Lemma mkdir_cases p w :
  (exists e, mkdir p w = (Raise e, w))
  \/ (mkdir p w = (Ok tt, with_fs w (<[p := Dir]> (fs w))) /\ fs w !! p = None).
Proof.
  unfold mkdir. destruct (PyStr.is_empty p) eqn:Hp; [left; eauto|].
  apply is_empty_false in Hp.
  destruct (node_at (fs w) p) eqn:E; [left; eauto|].
  destruct (check_parent p w) as [[[]|e] w'] eqn:C; [right | left; eauto].
  split; [reflexivity | now apply node_at_none].
Qed.

(** [open(p, 'wb')] raises and changes nothing, which it does on a
    directory, or leaves a file with the data. *)
Lemma write_file_cases p data w :
  (exists e, write_file p data w = (Raise e, w)
             /\ (p = "" \/ forall c, fs w !! p <> Some (File c)))
  \/ (write_file p data w = (Ok tt, with_fs w (<[p := File data]> (fs w)))
      /\ p <> "" /\ fs w !! p <> Some Dir).
Proof.
  unfold write_file. destruct (PyStr.is_empty p) eqn:Hp.
  { left. eexists. split; [reflexivity|]. left. now destruct p. }
  apply is_empty_false in Hp.
  destruct (node_at (fs w) p) as [[|c]|] eqn:E.
  - left. eexists. split; [reflexivity|]. right. intros c Hc.
    rewrite (node_at_raw _ _ _ Hp Hc) in E. discriminate.
  - right. split; [reflexivity|]. split; [exact Hp|].
    rewrite (node_at_file _ _ _ E). discriminate.
  - apply node_at_none in E; [|exact Hp].
    assert (forall c, fs w !! p <> Some (File c)) by (intros c; rewrite E; discriminate).
    assert (fs w !! p <> Some Dir) by (rewrite E; discriminate).
    destruct (PyStr.endswith p "/"); [left; eauto|].
    destruct (check_parent p w) as [[[]|e] w']; [right | left]; eauto.
Qed.

(** A file that is there can be written again. *)
Lemma write_file_over p data c w :
  p <> "" -> fs w !! p = Some (File c) ->
  write_file p data w = (Ok tt, with_fs w (<[p := File data]> (fs w))).
Proof.
  intros Hne H. unfold write_file. rewrite (node_at_raw _ _ _ Hne H).
  apply is_empty_false in Hne. now rewrite Hne.
Qed.

(** A new file can be written into a directory that is there. *)
Lemma write_file_new p data w :
  exists_in (fs w) p = false ->
  PyStr.is_empty p = false -> PyStr.endswith p "/" = false ->
  node_at (fs w) (OsPath.dirname p) = Some Dir ->
  write_file p data w = (Ok tt, with_fs w (<[p := File data]> (fs w))).
Proof.
  intros Hex Hne Hsl Hd. unfold write_file, exists_in in *.
  rewrite Hne. destruct (node_at (fs w) p); [discriminate|].
  rewrite Hsl. unfold check_parent. cbv zeta. rewrite Hd.
  destruct (PyStr.is_empty (OsPath.dirname p)); reflexivity.
Qed.

Lemma write_file_grows p data w :
  grows (fs w) (fs (snd (write_file p data w))).
Proof.
  destruct (write_file_cases p data w) as [(e & -> & _)|(-> & _ & Hd)]; [apply grows_refl|].
  cbn. split.
  - intros q [c Hc]. destruct (decide (p = q)) as [->|N].
    + exists data. apply lookup_insert_eq.
    + exists c. now rewrite lookup_insert_ne.
  - intros q Hq. rewrite lookup_insert_ne; [exact Hq | congruence].
Qed.

Lemma write_file_frame p data w :
  snd (write_file p data w) = with_fs w (fs (snd (write_file p data w))).
Proof.
  destruct (write_file_cases p data w) as [(e & -> & _)|[-> _]]; cbn;
    [now rewrite with_fs_id | reflexivity].
Qed.

Lemma write_file_origin p data w q c :
  fs (snd (write_file p data w)) !! q = Some (File c) ->
  fs w !! q = Some (File c) \/ (q = p /\ c = data).
Proof.
  destruct (write_file_cases p data w) as [(e & -> & _)|[-> _]]; cbn; [auto|].
  destruct (decide (p = q)) as [->|N].
  - rewrite lookup_insert_eq. intros [= ->]. now right.
  - rewrite lookup_insert_ne by exact N. auto.
Qed.

Lemma last_cons2 {A} (a b : A) (l : list A) (d : A) :
  List.last (a :: b :: l) d = List.last (b :: l) d.
Proof. reflexivity. Qed.

Lemma last_app_r {A} (l1 l2 : list A) (d : A) :
  l2 <> [] -> List.last (l1 ++ l2) d = List.last l2 d.
Proof.
  intros H. induction l1 as [|a l1 IH]; [reflexivity|].
  cbn [app]. destruct (l1 ++ l2)%list eqn:E.
  - apply app_eq_nil in E. now destruct E.
  - rewrite last_cons2. exact IH.
Qed.

(** The last directory [os.makedirs] goes through is the path itself. *)
Lemma dir_prefixes_last (rest : string) : forall done,
  done +:+ rest <> "" ->
  dir_prefixes done rest <> []
  /\ List.last (dir_prefixes done rest) "" = done +:+ rest.
Proof.
  induction rest as [|c r IH]; intros done H; cbn [dir_prefixes].
  - rewrite app_str_nil_r in *. destruct done; [now destruct H|].
    cbn. split; [discriminate | reflexivity].
  - assert ((done +:+ String c "") +:+ r <> "") as H'.
    { rewrite app_str_assoc. exact H. }
    destruct (IH _ H') as [Hn Hl]. split.
    + intros E. apply app_eq_nil in E. now destruct E.
    + rewrite last_app_r by exact Hn. rewrite Hl. apply app_str_assoc.
Qed.

(** Every directory [os.makedirs] goes through is at most as long as the
    path it was given. *)
Lemma dir_prefixes_length (rest : string) : forall done q,
  In q (dir_prefixes done rest) ->
  (String.length q <= String.length done + String.length rest)%nat.
Proof.
  induction rest as [|c r IH]; intros done q Hin; cbn [dir_prefixes] in Hin.
  - destruct (PyStr.is_empty done); [destruct Hin|].
    destruct Hin as [<-|[]]. lia.
  - apply in_app_or in Hin. destruct Hin as [Hin|Hin].
    + destruct (_ && _); [|destruct Hin].
      destruct Hin as [<-|[]]. lia.
    + apply IH in Hin. rewrite length_app_str in Hin.
      simpl String.length in *. lia.
Qed.

(** Whatever its outcome, [os.makedirs] only adds directories where nothing
    was, among the directories it goes through. *)
Lemma makedirs_from_shape (qs : list string) : forall w,
  exists m', snd (makedirs_from qs w) = with_fs w m'
    /\ dirs_added (fs w) m'
    /\ (forall x, fs w !! x = None -> is_Some (m' !! x) -> In x qs).
Proof.
  assert (forall w, exists m', w = with_fs w m' /\ dirs_added (fs w) m'
            /\ (forall x, fs w !! x = None -> is_Some (m' !! x) -> False)) as Same.
  { intros w. exists (fs w). rewrite with_fs_id. split; [reflexivity|].
    split; [apply dirs_added_refl|]. intros x H [n Hn]. congruence. }
  assert (forall q w, exists m', snd (mkdir q w) = with_fs w m' /\ dirs_added (fs w) m'
            /\ (forall x, fs w !! x = None -> is_Some (m' !! x) -> x = q)) as Mk.
  { intros q w. destruct (mkdir_cases q w) as [[e ->]|[-> Hq]].
    - destruct (Same w) as (m' & E & D & N). exists m'. cbn.
      split; [exact E|]. split; [exact D|]. intros x Hx Hs. destruct (N x Hx Hs).
    - exists (<[q := Dir]> (fs w)). split; [reflexivity|].
      split; [now apply dirs_added_insert|].
      intros x Hx [n Hn]. destruct (decide (q = x)) as [->|Nq]; [reflexivity|].
      rewrite lookup_insert_ne in Hn by exact Nq. congruence. }
  induction qs as [|q rest IH]; intros w.
  - destruct (Same w) as (m' & E & D & N). exists m'. cbn.
    split; [exact E|]. split; [exact D|]. intros x Hx Hs. destruct (N x Hx Hs).
  - cbn [makedirs_from]. destruct rest as [|q' rest'].
    + destruct (Mk q w) as (m' & E & D & N). exists m'.
      split; [exact E|]. split; [exact D|]. intros x Hx Hs. left. symmetry. now apply N.
    + unfold bind at 1. unfold path_exists. cbn beta iota.
      assert (forall w1 m1, w1 = with_fs w m1 -> dirs_added (fs w) m1 ->
                (forall x, fs w !! x = None -> is_Some (m1 !! x) -> x = q) ->
                exists m', snd (makedirs_from (q' :: rest') w1) = with_fs w m'
                  /\ dirs_added (fs w) m'
                  /\ (forall x, fs w !! x = None -> is_Some (m' !! x) ->
                                In x (q :: q' :: rest'))) as Next.
      { intros w1 m1 -> D1 N1. destruct (IH (with_fs w m1)) as (m' & E & D & N).
        exists m'. split; [rewrite E; reflexivity|].
        split; [exact (dirs_added_trans _ _ _ D1 D)|].
        intros x Hx Hs. cbn [fs with_fs] in N.
        destruct (m1 !! x) eqn:E1.
        - left. symmetry. apply N1; [exact Hx | now rewrite E1].
        - right. now apply N. }
      destruct (exists_in (fs w) q).
      * unfold bind, ret. cbn beta iota.
        apply (Next w (fs w)); [now rewrite with_fs_id | apply dirs_added_refl|].
        intros x Hx [n Hn]. congruence.
      * unfold bind at 1.
        destruct (mkdir_cases q w) as [[e ->]|[-> Hq]].
        -- destruct (Same w) as (m' & E & D & N). exists m'. cbn.
           split; [exact E|]. split; [exact D|]. intros x Hx Hs. destruct (N x Hx Hs).
        -- apply (Next _ (<[q := Dir]> (fs w))); [reflexivity | now apply dirs_added_insert|].
           intros x Hx [n Hn]. destruct (decide (q = x)) as [->|Nq]; [reflexivity|].
           rewrite lookup_insert_ne in Hn by exact Nq. congruence.
Qed.

(** When [os.makedirs] returns, the last directory it went through is
    there. *)
Lemma makedirs_from_last (qs : list string) : forall w,
  qs <> [] -> fst (makedirs_from qs w) = Ok tt ->
  fs (snd (makedirs_from qs w)) !! List.last qs "" = Some Dir.
Proof.
  induction qs as [|q rest IH]; intros w Hne; [now destruct Hne|].
  cbn [makedirs_from]. destruct rest as [|q' rest'].
  - cbn [List.last]. destruct (mkdir_cases q w) as [[e ->]|[-> Hq]]; [discriminate|].
    intros _. cbn. apply lookup_insert_eq.
  - rewrite last_cons2.
    change (makedirs_from (q :: q' :: rest') w)
      with ((ex <- path_exists q ;; (if ex then ret tt else mkdir q) ;;
             makedirs_from (q' :: rest')) w).
    unfold bind, path_exists. cbn beta iota.
    destruct (exists_in (fs w) q).
    + unfold ret. cbn beta iota. apply IH. discriminate.
    + destruct (mkdir_cases q w) as [[e ->]|[-> Hq]]; [discriminate|].
      apply IH. discriminate.
Qed.

Lemma makedirs_shape p w :
  exists m', snd (makedirs p w) = with_fs w m'
    /\ dirs_added (fs w) m'
    /\ (forall x, fs w !! x = None -> is_Some (m' !! x) ->
                  (String.length x <= String.length p)%nat).
Proof.
  unfold makedirs. destruct (PyStr.is_empty p).
  - exists (fs w). cbn. rewrite with_fs_id. split; [reflexivity|].
    split; [apply dirs_added_refl|]. intros x H [n Hn]. congruence.
  - destruct (makedirs_from_shape (dir_prefixes "" p) w) as (m' & E & D & N).
    exists m'. split; [exact E|]. split; [exact D|].
    intros x Hx Hs. exact (dir_prefixes_length p "" x (N x Hx Hs)).
Qed.

Lemma makedirs_made p w :
  fst (makedirs p w) = Ok tt -> fs (snd (makedirs p w)) !! p = Some Dir.
Proof.
  unfold makedirs. destruct p as [|c p]; [discriminate|].
  change (PyStr.is_empty (String c p)) with false. cbn iota.
  destruct (dir_prefixes_last (String c p) "") as [Hn Hl]; [discriminate|].
  intros H. pose proof (makedirs_from_last _ w Hn H) as R.
  rewrite Hl in R. exact R.
Qed.

(** The idiom [if not os.path.exists(p): os.makedirs(p)]. *)
Lemma ensure_step {A} (p : string) (k : M A) w :
  (ex <- path_exists p ;; (if negb ex then makedirs p else ret tt) ;; k) w
  = match ensure p w with
    | (Ok _, w1) => k w1
    | (Raise e, w1) => (Raise e, w1)
    end.
Proof. reflexivity. Qed.

Lemma ensure_shape p w :
  exists m', snd (ensure p w) = with_fs w m'
    /\ dirs_added (fs w) m'
    /\ (forall x, fs w !! x = None -> is_Some (m' !! x) ->
                  (String.length x <= String.length p)%nat).
Proof.
  unfold ensure, bind, path_exists. destruct (exists_in (fs w) p); cbn [negb].
  - exists (fs w). cbn. rewrite with_fs_id. split; [reflexivity|].
    split; [apply dirs_added_refl|]. intros x H [n Hn]. congruence.
  - apply makedirs_shape.
Qed.

Lemma ensure_frame p w : snd (ensure p w) = with_fs w (fs (snd (ensure p w))).
Proof. destruct (ensure_shape p w) as (m' & -> & _). reflexivity. Qed.

Lemma ensure_events p w : events (snd (ensure p w)) = events w.
Proof. now rewrite ensure_frame. Qed.

Lemma ensure_net p w : net (snd (ensure p w)) = net w.
Proof. now rewrite ensure_frame. Qed.

Lemma ensure_net_calls p w : net_calls (snd (ensure p w)) = net_calls w.
Proof. unfold net_calls. now rewrite ensure_events. Qed.

Lemma ensure_dirs_added p w : dirs_added (fs w) (fs (snd (ensure p w))).
Proof. destruct (ensure_shape p w) as (m' & -> & D & _). exact D. Qed.

(** A path longer than [p] is not touched. *)
Lemma ensure_longer p w x :
  (String.length p < String.length x)%nat ->
  fs (snd (ensure p w)) !! x = fs w !! x.
Proof.
  intros Hlen. destruct (ensure_shape p w) as (m' & -> & [D1 D2] & N). cbn.
  destruct (fs w !! x) eqn:E; [now apply D1|].
  destruct (m' !! x) eqn:E'; [|reflexivity].
  specialize (N x E). rewrite E' in N. specialize (N (ex_intro _ _ eq_refl)). lia.
Qed.

Lemma ensure_longer_exists p w x :
  (String.length p < String.length x)%nat ->
  exists_in (fs (snd (ensure p w))) x = exists_in (fs w) x.
Proof. intros H. unfold exists_in, node_at. now rewrite ensure_longer. Qed.

(** After the idiom returned, the path is there. *)
Lemma ensure_made_exists p w :
  made p w -> exists_in (fs (snd (ensure p w))) p = true.
Proof.
  unfold made, ensure, bind, path_exists.
  destruct (exists_in (fs w) p) eqn:E; cbn [negb]; [intros _; exact E|].
  intros H. assert (p <> "") as Hne by (intros ->; discriminate).
  apply makedirs_made in H. now apply exists_in_raw in H.
Qed.

(** Where the path is there, the idiom does nothing. *)
Lemma ensure_noop p w : exists_in (fs w) p = true -> ensure p w = (Ok tt, w).
Proof. intros H. unfold ensure, bind, path_exists. now rewrite H. Qed.

Lemma made_nonempty p w : made p w -> p <> "".
Proof. intros H. apply ensure_made_exists in H. now apply exists_in_nonempty in H. Qed.

Lemma made_ensure p w : made p w -> ensure p w = (Ok tt, snd (ensure p w)).
Proof. unfold made. destruct (ensure p w) as [r w1]. cbn. now intros ->. Qed.

Lemma madeb_made p w : madeb p w = true <-> made p w.
Proof.
  unfold madeb, made. destruct (fst (ensure p w)) as [[]|e]; split; congruence.
Qed.

End FileSystem.

(** ** [downloader]: validation, the start message, the message for no data *)

Section Orchestrator.

Context `{L : Libraries}.

Lemma check_keys_pass (download : remotes) (keys : list string) (w : world) :
  (forall k, In k keys -> in_keys k download = true) ->
  check_keys download keys w = (Ok tt, w).
Proof.
  induction keys as [|k keys IH]; intros H; cbn [check_keys]; [reflexivity|].
  rewrite (H k) by now left. cbn [negb]. apply IH. intros k' Hk'. apply H. now right.
Qed.

Lemma check_keys_unknown (download : remotes) (keys : list string) (w : world) (k : string) :
  In k keys -> in_keys k download = false ->
  check_keys download keys w = (Raise (Exn KeyError msg_key_error), w).
Proof.
  induction keys as [|k' keys IH]; intros Hin Hk; [destruct Hin|].
  cbn [check_keys]. destruct (in_keys k' download) eqn:E; cbn [negb]; [|reflexivity].
  destruct Hin as [->|Hin]; [congruence | now apply IH].
Qed.

Lemma check_keys_world (download : remotes) (keys : list string) (w : world) :
  snd (check_keys download keys w) = w.
Proof.
  induction keys as [|k keys IH]; cbn [check_keys]; [reflexivity|].
  destruct (negb _); [reflexivity | exact IH].
Qed.

(** Lines 53-54 come first: when [save_dir] cannot be made, the call
    raises the error of [os.makedirs] and looks at nothing else. *)
Lemma save_dir_comes_first (save_dir : string) (download : option remotes)
      (partial_download : pyarg) (info_message : option string)
      (force_overwrite cleanup : bool) (w : world) (e : exn) :
  fst (ensure save_dir w) = Raise e ->
  downloader save_dir download partial_download info_message
             force_overwrite cleanup w
  = (Raise e, snd (ensure save_dir w)).
Proof.
  intros H. unfold downloader. rewrite ensure_step.
  destruct (ensure save_dir w) as [[[]|e'] w1]; cbn in H; [discriminate|].
  now injection H as ->.
Qed.

(** With a dict for [download], whatever the other arguments, the call
    records no event: nothing is printed, nothing transferred; the file
    system is as lines 53-54 leave it. *)
Lemma dict_download_silent (save_dir : string) (download : remotes)
      (partial_download : pyarg) (info_message : option string)
      (force_overwrite cleanup : bool) (w : world) :
  snd (downloader save_dir (Some download) partial_download info_message
                  force_overwrite cleanup w)
  = snd (ensure save_dir w).
Proof.
  unfold downloader. rewrite ensure_step.
  destruct (ensure save_dir w) as [[[]|e] w1]; [|reflexivity].
  destruct partial_download as [|keys|keys|ty]; try reflexivity.
  unfold bind. pose proof (check_keys_world download keys w1) as E.
  destruct (check_keys download keys w1) as [[[]|e] w']; cbn in E; now subst w'.
Qed.

(** With a dict for [download] the call always raises: lines 81-105 are
    never reached. *)
Lemma dict_download_raises (save_dir : string) (download : remotes)
      (partial_download : pyarg) (info_message : option string)
      (force_overwrite cleanup : bool) (w : world) :
  exists e, fst (downloader save_dir (Some download) partial_download info_message
                            force_overwrite cleanup w) = Raise e.
Proof.
  unfold downloader. rewrite ensure_step.
  destruct (ensure save_dir w) as [[[]|e] w1]; [|eexists; reflexivity].
  destruct partial_download as [|keys|keys|ty]; try (eexists; reflexivity).
  unfold bind.
  destruct (check_keys download keys _) as [[[]|e] w']; eexists; reflexivity.
Qed.

(** C2: with a dict for [download] and a [partial_download] that passes the
    validation of lines 57-70 (it is [None], or a list of keys of the
    dict), the call raises: [AttributeError] at the [keys()] of line 77
    when [save_dir] is there or can be made, the error of [os.makedirs]
    otherwise.  In both cases nothing is printed, no transfer is started
    and no archive is opened; the file system is as lines 53-54 leave
    it. *)
Theorem start_message_raises (save_dir : string) (download : remotes)
        (partial_download : pyarg) (info_message : option string)
        (force_overwrite cleanup : bool) (w : world) :
  validated download partial_download ->
  let r := downloader save_dir (Some download) partial_download info_message
                      force_overwrite cleanup w in
  (made save_dir w ->
   fst r = Raise (Exn AttributeError
                    ("'" +:+ type_name partial_download
                         +:+ "' object has no attribute 'keys'")))
  /\ (forall e, fst (ensure save_dir w) = Raise e -> fst r = Raise e)
  /\ events (snd r) = events w
  /\ net_calls (snd r) = net_calls w
  /\ fs (snd r) = fs (snd (ensure save_dir w)).
Proof.
  intros Hv r. split; [|split].
  - intros Hm. subst r. unfold downloader. rewrite ensure_step.
    rewrite (made_ensure _ _ Hm).
    destruct Hv as [->|(keys & -> & Hk)]; [reflexivity|].
    unfold bind. rewrite check_keys_pass by exact Hk. reflexivity.
  - intros e He. subst r. now rewrite (save_dir_comes_first _ _ _ _ _ _ _ e He).
  - subst r. rewrite dict_download_silent.
    now rewrite ensure_events, ensure_net_calls.
Qed.

(** C4: a list [partial_download] with a key that is not in [download]
    makes the call raise [KeyError] in the loop of lines 64-69 when
    [save_dir] is there or can be made, and the error of [os.makedirs]
    otherwise; in both cases before any transfer is started: no event is
    recorded, and the file system is as lines 53-54 leave it. *)
Theorem unknown_key_fails_fast (save_dir : string) (download : remotes)
        (keys : list string) (info_message : option string)
        (force_overwrite cleanup : bool) (w : world) (k : string) :
  In k keys -> in_keys k download = false ->
  let r := downloader save_dir (Some download) (PyList keys) info_message
                      force_overwrite cleanup w in
  (made save_dir w -> fst r = Raise (Exn KeyError msg_key_error))
  /\ (forall e, fst (ensure save_dir w) = Raise e -> fst r = Raise e)
  /\ events (snd r) = events w
  /\ net_calls (snd r) = net_calls w
  /\ fs (snd r) = fs (snd (ensure save_dir w)).
Proof.
  intros Hin Hk r. split; [|split].
  - intros Hm. subst r. unfold downloader. rewrite ensure_step.
    rewrite (made_ensure _ _ Hm).
    unfold bind. now rewrite (check_keys_unknown download keys _ k).
  - intros e He. subst r. now rewrite (save_dir_comes_first _ _ _ _ _ _ _ e He).
  - subst r. rewrite dict_download_silent.
    now rewrite ensure_events, ensure_net_calls.
Qed.

(** An object that is neither [None] nor a list is refused by its type,
    even a dict, whose [keys()] line 77 could call. *)
Lemma other_type_refused (save_dir : string) (download : remotes)
      (partial_download : pyarg) (info_message : option string)
      (force_overwrite cleanup : bool) (w : world) :
  made save_dir w ->
  partial_download <> PyNone ->
  (forall keys, partial_download <> PyList keys) ->
  downloader save_dir (Some download) partial_download info_message
             force_overwrite cleanup w
  = (Raise (Exn TypeError (msg_type_error partial_download)),
     snd (ensure save_dir w)).
Proof.
  intros Hm Hn Hl. unfold downloader. rewrite ensure_step.
  rewrite (made_ensure _ _ Hm).
  destruct partial_download; try reflexivity; [congruence | now destruct (Hl keys)].
Qed.

(** Without a dict ([download] is [None]) and with an [info_message], the
    message is printed and the call returns, when [save_dir] is there or
    can be made; there is no transfer. *)
Lemma absent_download_prints (save_dir msg : string)
      (partial_download : pyarg) (force_overwrite cleanup : bool) (w : world) :
  made save_dir w ->
  downloader save_dir None partial_download (Some msg) force_overwrite cleanup w
  = (Ok tt, log (EPrint msg) (snd (ensure save_dir w))).
Proof.
  intros Hm. unfold downloader. rewrite ensure_step.
  now rewrite (made_ensure _ _ Hm).
Qed.

(** C3, as the code has it: an empty dict is not [None], so the call does
    not take the way of lines 106-108.  It raises, at line 77 when
    [save_dir] is there or can be made, and the [info_message] is not
    printed: the call records no event at all. *)
Theorem empty_dict_hides_message (save_dir msg : string)
        (force_overwrite cleanup : bool) (w : world) :
  let r := downloader save_dir (Some []) PyNone (Some msg)
                      force_overwrite cleanup w in
  (exists e, fst r = Raise e)
  /\ (made save_dir w ->
      fst r = Raise (Exn AttributeError "'NoneType' object has no attribute 'keys'"))
  /\ events (snd r) = events w.
Proof.
  intros r. split; [apply dict_download_raises|]. split.
  - intros Hm. subst r. unfold downloader. rewrite ensure_step.
    now rewrite (made_ensure _ _ Hm).
  - subst r. now rewrite dict_download_silent, ensure_events.
Qed.

End Orchestrator.

(** ** [download_from_remote]: transfer and verification *)

Section Fetcher.

Context `{L : Libraries}.

Implicit Types (remote : RemoteFileMetadata) (w : world).

Local Open Scope nat_scope.

Lemma download_from_remote_steps remote save_dir force w :
  download_from_remote remote save_dir force w
  = match ensure (download_dir_of remote save_dir) w with
    | (Ok _, w1) =>
        (transfer_step remote (download_path_of remote save_dir) force ;;
         verify_step remote (download_path_of remote save_dir)) w1
    | (Raise e, w1) => (Raise e, w1)
    end.
Proof. reflexivity. Qed.

(** When the download directory cannot be made, the call raises the error
    of [os.makedirs] and does nothing else. *)
Lemma download_dir_comes_first remote save_dir force w e :
  fst (ensure (download_dir_of remote save_dir) w) = Raise e ->
  download_from_remote remote save_dir force w
  = (Raise e, snd (ensure (download_dir_of remote save_dir) w)).
Proof.
  intros H. rewrite download_from_remote_steps.
  destruct (ensure _ w) as [[[]|e'] w1]; cbn in H; [discriminate|].
  now injection H as ->.
Qed.

Lemma verify_step_world remote path w : snd (verify_step remote path w) = w.
Proof.
  unfold verify_step, md5, bind, read_file, ret, raise.
  destruct (fs w !! path) as [[|c]|]; try reflexivity.
  now destruct (negb _).
Qed.

Lemma verify_step_file remote path w c :
  fs w !! path = Some (File c) ->
  verify_step remote path w
  = (if String.eqb (checksum remote) (md5_hex c) then Ok path
     else Raise (Exn IOError (msg_checksum path (md5_hex c) (checksum remote))), w).
Proof.
  intros H. unfold verify_step, md5, bind, read_file, ret, raise. rewrite H.
  now destruct (String.eqb _ _).
Qed.

Lemma verify_step_ok remote path w p :
  fst (verify_step remote path w) = Ok p ->
  p = path /\ exists c, fs w !! path = Some (File c) /\ md5_hex c = checksum remote.
Proof.
  destruct (fs w !! path) as [[|c]|] eqn:E.
  - unfold verify_step, md5, bind, read_file. rewrite E. discriminate.
  - rewrite (verify_step_file _ _ _ c E).
    destruct (String.eqb_spec (checksum remote) (md5_hex c)); [|discriminate].
    cbn. intros [= <-]. eauto.
  - unfold verify_step, md5, bind, read_file. rewrite E. discriminate.
Qed.

Lemma transfer_step_skip remote path w :
  exists_in (fs w) path = true ->
  transfer_step remote path false w = (Ok tt, w).
Proof. intros H. unfold transfer_step, bind, path_exists. now rewrite H. Qed.

(** The transfer step when the transfer is due: one request; the body, or
    the part that arrived, is written to the path; a failure is reported
    and raised again. *)
Lemma transfer_step_due remote path force w :
  negb (exists_in (fs w) path) || force = true ->
  transfer_step remote path force w
  = match net w (url remote) with
    | Served body =>
        match write_file path body (log (EUrlretrieve (url remote) path) w) with
        | (Ok _, w2) => (Ok tt, w2)
        | (Raise e, w2) => (Raise e, log (EPrint (msg_download_failed (url remote))) w2)
        end
    | Failed info None =>
        (Raise (Exn URLError info),
         log (EPrint (msg_download_failed (url remote)))
             (log (EUrlretrieve (url remote) path) w))
    | Failed info (Some part) =>
        match write_file path part (log (EUrlretrieve (url remote) path) w) with
        | (Ok _, w2) =>
            (Raise (Exn URLError info),
             log (EPrint (msg_download_failed (url remote))) w2)
        | (Raise e, w2) => (Raise e, log (EPrint (msg_download_failed (url remote))) w2)
        end
    end.
Proof.
  intros H. unfold transfer_step, bind, path_exists. rewrite H.
  unfold try_except, urlretrieve, bind, raise, print. cbv zeta.
  destruct (net w (url remote)) as [body|info [part|]]; [| |reflexivity];
    destruct (write_file _ _ _) as [[[]|e] w2]; reflexivity.
Qed.

(** The transfer step starts one transfer when the path is missing or
    overwriting is forced, none otherwise. *)
Lemma transfer_step_net_calls remote path force w :
  net_calls (snd (transfer_step remote path force w))
  = net_calls w + (if negb (exists_in (fs w) path) || force then 1 else 0).
Proof.
  destruct (negb (exists_in (fs w) path) || force) eqn:H.
  - rewrite transfer_step_due by exact H.
    destruct (net w (url remote)) as [body|info [part|]];
      [| |unfold net_calls; cbn; lia].
    + destruct (write_file_cases path body (log (EUrlretrieve (url remote) path) w))
        as [(e & -> & _)|[-> _]]; unfold net_calls; cbn; lia.
    + destruct (write_file_cases path part (log (EUrlretrieve (url remote) path) w))
        as [(e & -> & _)|[-> _]]; unfold net_calls; cbn; lia.
  - unfold transfer_step, bind, path_exists. rewrite H. cbn. lia.
Qed.

(** When the transfer step raises, there was one request and the failure
    was reported; the transfer itself failed, or the path could not be
    opened for writing and is no file. *)
Lemma transfer_step_raise remote path force w e w' :
  transfer_step remote path force w = (Raise e, w') ->
  events w' = EPrint (msg_download_failed (url remote))
              :: EUrlretrieve (url remote) path :: events w
  /\ ((exists info part, net w (url remote) = Failed info part /\ e = Exn URLError info)
      \/ path = ""%string \/ forall c, fs w' !! path <> Some (File c)).
Proof.
  destruct (negb (exists_in (fs w) path) || force) eqn:H.
  - rewrite transfer_step_due by exact H.
    destruct (net w (url remote)) as [body|info [part|]].
    + destruct (write_file_cases path body (log (EUrlretrieve (url remote) path) w))
        as [(e' & -> & Hn)|[-> _]]; [|discriminate].
      intros [= <- <-]. cbn. split; [reflexivity|]. right. exact Hn.
    + destruct (write_file_cases path part (log (EUrlretrieve (url remote) path) w))
        as [(e' & -> & Hn)|[-> _]]; intros [= <- <-]; cbn; (split; [reflexivity|]).
      * right. exact Hn.
      * left. eauto.
    + intros [= <- <-]. cbn. split; [reflexivity|]. left. eauto.
  - unfold transfer_step, bind, path_exists. rewrite H. discriminate.
Qed.

(** The transfer step changes the file system at the download path only,
    and never where a directory is. *)
Lemma transfer_step_fs remote path force w :
  fs (snd (transfer_step remote path force w)) = fs w
  \/ exists data, fs (snd (transfer_step remote path force w))
                  = <[path := File data]> (fs w)
                  /\ fs w !! path <> Some Dir.
Proof.
  destruct (negb (exists_in (fs w) path) || force) eqn:H.
  - rewrite transfer_step_due by exact H.
    destruct (net w (url remote)) as [body|info [part|]]; [| |now left].
    + destruct (write_file_cases path body (log (EUrlretrieve (url remote) path) w))
        as [(e' & -> & Hn)|(-> & _ & Hd)]; [now left|].
      right. exists body. split; [reflexivity | exact Hd].
    + destruct (write_file_cases path part (log (EUrlretrieve (url remote) path) w))
        as [(e' & -> & Hn)|(-> & _ & Hd)]; [now left|].
      right. exists part. split; [reflexivity | exact Hd].
  - unfold transfer_step, bind, path_exists. rewrite H. now left.
Qed.

Lemma download_from_remote_fs remote save_dir force w :
  let m1 := fs (snd (ensure (download_dir_of remote save_dir) w)) in
  let r := download_from_remote remote save_dir force w in
  fs (snd r) = m1
  \/ exists data, fs (snd r) = <[download_path_of remote save_dir := File data]> m1
                  /\ m1 !! download_path_of remote save_dir <> Some Dir.
Proof.
  cbv zeta. rewrite download_from_remote_steps.
  destruct (ensure _ w) as [[[]|e] w1]; [|now left]. unfold bind.
  pose proof (transfer_step_fs remote (download_path_of remote save_dir) force w1) as H.
  destruct (transfer_step _ _ _ _) as [[[]|e] w2]; cbn [snd fs with_fs] in *.
  - now rewrite verify_step_world.
  - exact H.
Qed.

(** No call takes a file or a directory away. *)
Lemma download_from_remote_grows remote save_dir force w :
  grows (fs w) (fs (snd (download_from_remote remote save_dir force w))).
Proof.
  pose proof (dirs_added_grows _ _ (ensure_dirs_added (download_dir_of remote save_dir) w))
    as G.
  destruct (download_from_remote_fs remote save_dir force w) as [->|(data & -> & Hd)];
    [exact G|].
  eapply grows_trans; [exact G|]. split.
  - intros q [c Hc]. destruct (decide (download_path_of remote save_dir = q)) as [->|N].
    + exists data. apply lookup_insert_eq.
    + exists c. now rewrite lookup_insert_ne.
  - intros q Hq. rewrite lookup_insert_ne; [exact Hq | congruence].
Qed.


Lemma msg_download_failed_url (u : string) :
  PyStr.contains u (msg_download_failed u) = true.
Proof.
  unfold msg_download_failed. do 2 apply contains_app_r. apply contains_head.
Qed.

(** A call that returns has verified the file it returns. *)
Lemma download_from_remote_ok remote save_dir force w p :
  fst (download_from_remote remote save_dir force w) = Ok p ->
  made (download_dir_of remote save_dir) w
  /\ p = download_path_of remote save_dir
  /\ exists c, fs (snd (download_from_remote remote save_dir force w)) !! p = Some (File c)
               /\ md5_hex c = checksum remote.
Proof.
  rewrite download_from_remote_steps. unfold made.
  destruct (ensure _ w) as [[[]|e] w1]; [|discriminate]. unfold bind.
  destruct (transfer_step _ _ _ _) as [[[]|e] w2]; [|discriminate].
  intros H. pose proof (verify_step_world remote (download_path_of remote save_dir) w2) as Hw.
  apply verify_step_ok in H as (-> & c & Hc & Hd).
  split; [reflexivity|]. split; [reflexivity|]. exists c. now rewrite Hw.
Qed.

Lemma download_from_remote_net_calls remote save_dir force w :
  net_calls (snd (download_from_remote remote save_dir force w))
  = net_calls w
    + (if madeb (download_dir_of remote save_dir) w
          && (negb (exists_in (fs (snd (ensure (download_dir_of remote save_dir) w)))
                              (download_path_of remote save_dir)) || force)
       then 1 else 0).
Proof.
  rewrite download_from_remote_steps. unfold madeb.
  pose proof (ensure_net_calls (download_dir_of remote save_dir) w) as He.
  destruct (ensure _ w) as [[[]|e] w1]; cbn [fst snd andb] in *; [|lia].
  unfold bind.
  pose proof (transfer_step_net_calls remote (download_path_of remote save_dir) force w1)
    as H.
  destruct (transfer_step _ _ _ _) as [[[]|e] w2]; cbn [snd fst] in *.
  - rewrite verify_step_world. lia.
  - lia.
Qed.

(** The download path of a well-named file is longer than the download
    directory: making the directory does not touch it. *)
Lemma ensure_download_path remote save_dir w :
  well_named remote ->
  fs (snd (ensure (download_dir_of remote save_dir) w)) !! download_path_of remote save_dir
  = fs w !! download_path_of remote save_dir
  /\ exists_in (fs (snd (ensure (download_dir_of remote save_dir) w)))
               (download_path_of remote save_dir)
     = exists_in (fs w) (download_path_of remote save_dir).
Proof.
  intros [Hne Hrel].
  pose proof (join_longer (download_dir_of remote save_dir) (filename remote) Hne Hrel).
  split; [now apply ensure_longer | now apply ensure_longer_exists].
Qed.

Lemma join_nonempty (a b : string) : a <> ""%string -> OsPath.join a b <> ""%string.
Proof.
  intros Ha. unfold OsPath.join. unfold PyStr.startswith.
  destruct (String.prefix _ b) eqn:E; [destruct b; [discriminate | discriminate]|].
  destruct (_ || _); destruct a; (now destruct Ha) || discriminate.
Qed.

Lemma download_path_nonempty remote save_dir w :
  made (download_dir_of remote save_dir) w ->
  download_path_of remote save_dir <> ""%string.
Proof. intros H. apply join_nonempty. exact (made_nonempty _ _ H). Qed.

(** After a call that made the download directory, the directory is
    there. *)
Lemma download_dir_stays remote save_dir force w :
  made (download_dir_of remote save_dir) w ->
  exists_in (fs (snd (download_from_remote remote save_dir force w)))
            (download_dir_of remote save_dir) = true.
Proof.
  intros Hm. pose proof (ensure_made_exists _ _ Hm) as He.
  destruct (download_from_remote_fs remote save_dir force w) as [->|(data & -> & Hd)];
    [exact He|].
  eapply exists_in_grows; [|exact He]. split.
  - intros q [c Hc]. destruct (decide (download_path_of remote save_dir = q)) as [->|N].
    + exists data. apply lookup_insert_eq.
    + exists c. now rewrite lookup_insert_ne.
  - intros q Hq. rewrite lookup_insert_ne; [exact Hq | congruence].
Qed.

(** A call without forcing, on a file that is there. *)
Lemma download_from_remote_again remote save_dir w c :
  exists_in (fs w) (download_dir_of remote save_dir) = true ->
  fs w !! download_path_of remote save_dir = Some (File c) ->
  download_from_remote remote save_dir false w
  = (if String.eqb (checksum remote) (md5_hex c)
     then Ok (download_path_of remote save_dir)
     else Raise (Exn IOError (msg_checksum (download_path_of remote save_dir)
                                           (md5_hex c) (checksum remote))), w).
Proof.
  intros Hd H. rewrite download_from_remote_steps, (ensure_noop _ _ Hd).
  unfold bind. rewrite transfer_step_skip.
  - now apply verify_step_file.
  - apply (exists_in_raw _ _ (File c)); [|exact H].
    apply join_nonempty. now apply exists_in_nonempty in Hd.
Qed.

(** Writing to the download path of a file with a simple name, in a
    download directory that is there: it works unless the path is a
    directory. *)
Lemma write_download_path remote save_dir w ev data :
  simple_name (filename remote) ->
  dir_ready (download_dir_of remote save_dir) w ->
  PyStr.endswith (download_dir_of remote save_dir) "/" = false ->
  fs w !! download_path_of remote save_dir <> Some Dir ->
  let w1 := log ev (snd (ensure (download_dir_of remote save_dir) w)) in
  write_file (download_path_of remote save_dir) data w1
  = (Ok tt, with_fs w1 (<[download_path_of remote save_dir := File data]> (fs w1))).
Proof.
  intros [Hne Hf] [Hm Hd] He Hn w1.
  pose proof (made_nonempty _ _ Hm) as Hd0.
  assert (well_named remote) as Hwn by (split; [exact Hne | now apply no_sep_not_absolute]).
  destruct (ensure_download_path remote save_dir w Hwn) as [E1 E2].
  pose proof (download_path_nonempty remote save_dir w Hm) as Hp.
  destruct (fs w !! download_path_of remote save_dir) as [[|c]|] eqn:E.
  - now destruct Hn.
  - apply (write_file_over _ _ c); [exact Hp|]. subst w1. cbn [fs log]. now rewrite E1.
  - apply write_file_new.
    + subst w1. cbn [fs log]. rewrite E2. unfold exists_in, node_at.
      apply is_empty_false in Hp. rewrite Hp, E. unfold is_root.
      unfold download_path_of. rewrite join_plain by (assumption || apply Hwn).
      rewrite all_char_sep_app by assumption. now rewrite andb_false_r.
    + now apply is_empty_false.
    + unfold download_path_of. rewrite join_plain by (assumption || apply Hwn).
      rewrite <- app_str_assoc. now apply endswith_app_no_sep.
    + unfold download_path_of. rewrite dirname_join by assumption. exact Hd.
Qed.

(** C5: [download_from_remote] starts a transfer exactly when the download
    directory is there or can be made, and the local path does not exist or
    [force_overwrite] is true: one transfer then, none otherwise.  So with
    [force_overwrite] the file is transferred again even when it is there.
    A second call without [force_overwrite] starts a transfer only when
    the first left nothing at the local path; after a call that returned
    it returns the same path without a transfer; and when the server
    serves the file, two calls make one transfer, whatever the first call
    found about the checksum, and the body is at the local path. *)
Theorem transfer_iff_missing_or_forced remote save_dir force w :
  well_named remote ->
  let d := download_dir_of remote save_dir in
  let path := download_path_of remote save_dir in
  let r := download_from_remote remote save_dir force w in
  let r2 := download_from_remote remote save_dir false (snd r) in
  net_calls (snd r)
  = net_calls w
    + (if madeb d w && (negb (exists_in (fs w) path) || force) then 1 else 0)
  /\ (made d w -> force = true -> net_calls (snd r) = S (net_calls w))
  /\ (made d w ->
      net_calls (snd r2)
      = net_calls (snd r) + (if exists_in (fs (snd r)) path then 0 else 1))
  /\ (forall p, fst r = Ok p -> fst r2 = Ok p /\ net_calls (snd r2) = net_calls (snd r))
  /\ (forall body,
        net w (url remote) = Served body ->
        dir_ready d w -> PyStr.endswith d "/" = false ->
        simple_name (filename remote) ->
        exists_in (fs w) path = false ->
        fs (snd r) !! path = Some (File body)
        /\ net_calls (snd r) = S (net_calls w)
        /\ net_calls (snd r2) = S (net_calls w)
        /\ fs (snd r2) !! path = Some (File body)).
Proof.
  intros Hwn d path r r2. subst d path.
  set (d := download_dir_of remote save_dir) in *.
  set (path := download_path_of remote save_dir) in *.
  assert (forall force' w',
            net_calls (snd (download_from_remote remote save_dir force' w'))
            = net_calls w'
              + (if madeb d w' && (negb (exists_in (fs w') path) || force')
                 then 1 else 0)) as Hcount.
  { intros force' w'. rewrite download_from_remote_net_calls.
    destruct (ensure_download_path remote save_dir w' Hwn) as [_ ->]. reflexivity. }
  assert (made d w -> exists_in (fs (snd r)) d = true) as Hstay.
  { intros Hm. exact (download_dir_stays remote save_dir force w Hm). }
  assert (made d w ->
          net_calls (snd r2)
          = net_calls (snd r) + (if exists_in (fs (snd r)) path then 0 else 1)) as Hsecond.
  { intros Hm. subst r2. rewrite Hcount.
    assert (madeb d (snd r) = true) as ->.
    { apply madeb_made. unfold made. now rewrite (ensure_noop _ _ (Hstay Hm)). }
    rewrite orb_false_r. cbn [andb]. now destruct (exists_in _ path). }
  split; [apply Hcount|]. split; [|split; [exact Hsecond|split]].
  - intros Hm ->. subst r. rewrite Hcount. apply madeb_made in Hm. rewrite Hm, orb_true_r.
    cbn [andb]. lia.
  - intros p Hp. apply download_from_remote_ok in Hp as (Hm & -> & c & Hc & Hd).
    fold r path in Hc. subst r2.
    rewrite (download_from_remote_again remote save_dir (snd r) c (Hstay Hm) Hc).
    rewrite <- Hd, String.eqb_refl. cbn [fst snd]. split; reflexivity.
  - intros body Hnet Hready He Hsn Hmiss.
    pose proof Hready as [Hm _].
    destruct (ensure_download_path remote save_dir w Hwn) as [E1 E2].
    fold d path in E1, E2.
    pose proof (download_path_nonempty remote save_dir w Hm) as Hp. fold path in Hp.
    assert (fs w !! path <> Some Dir) as Hnd.
    { intros Hdir. apply (exists_in_raw _ _ Dir) in Hdir; [congruence | exact Hp]. }
    assert (fs (snd r) !! path = Some (File body)) as Hbody.
    { subst r. rewrite download_from_remote_steps. fold d path.
      rewrite (made_ensure _ _ Hm). unfold bind.
      rewrite transfer_step_due by (rewrite E2, Hmiss; reflexivity).
      rewrite ensure_net, Hnet.
      rewrite (write_download_path remote save_dir w _ body Hsn Hready He Hnd).
      rewrite (verify_step_file _ _ _ body) by apply lookup_insert_eq.
      cbn [fst snd fs with_fs]. apply lookup_insert_eq. }
    assert (net_calls (snd r) = S (net_calls w)) as H1.
    { subst r. rewrite Hcount. apply madeb_made in Hm. rewrite Hm, Hmiss. cbn. lia. }
    assert (net_calls (snd r2) = S (net_calls w)) as H2.
    { rewrite (Hsecond Hm), (exists_in_raw _ _ (File body) Hp Hbody). lia. }
    split; [exact Hbody|]. split; [exact H1|]. split; [exact H2|].
    subst r2.
    rewrite (download_from_remote_again remote save_dir (snd r) body (Hstay Hm) Hbody).
    exact Hbody.
Qed.


(** C9, amended: when the transfer is started and fails, it is not started
    again: there is one request, the message that names the URL is
    printed, and the exception of the transfer itself reaches the caller,
    with the text the transport gave it (or, when part of the body had
    arrived and the download path cannot be opened, the error of opening
    it); the checksum is not looked at. *)
Theorem failed_transfer_surfaces remote save_dir force w info part :
  well_named remote ->
  made (download_dir_of remote save_dir) w ->
  net w (url remote) = Failed info part ->
  negb (exists_in (fs w) (download_path_of remote save_dir)) || force = true ->
  let r := download_from_remote remote save_dir force w in
  let path := download_path_of remote save_dir in
  (exists e, fst r = Raise e
             /\ (e = Exn URLError info \/ forall c, fs (snd r) !! path <> Some (File c)))
  /\ (part = None -> fst r = Raise (Exn URLError info))
  /\ events (snd r) = EPrint (msg_download_failed (url remote))
                      :: EUrlretrieve (url remote) path :: events w
  /\ PyStr.contains (url remote) (msg_download_failed (url remote)) = true
  /\ net_calls (snd r) = S (net_calls w).
Proof.
  intros Hwn Hm Hnet Hneed r path. subst r path.
  pose proof (download_path_nonempty remote save_dir w Hm) as Hp.
  destruct (ensure_download_path remote save_dir w Hwn) as [_ E2].
  pose proof (ensure_events (download_dir_of remote save_dir) w) as Hev0.
  pose proof (ensure_net (download_dir_of remote save_dir) w) as Hnet0.
  rewrite download_from_remote_steps, (made_ensure _ _ Hm). unfold bind.
  set (w1 := snd (ensure (download_dir_of remote save_dir) w)) in *.
  assert (exists e w2, transfer_step remote (download_path_of remote save_dir) force w1
                       = (Raise e, w2)
                       /\ (part = None -> e = Exn URLError info)) as (e & w2 & Et & Hnone).
  { rewrite transfer_step_due by (rewrite E2; exact Hneed).
    rewrite Hnet0, Hnet. destruct part as [part|]; [|eauto].
    destruct (write_file _ _ _) as [[[]|e] w2]; eexists; eexists;
      (split; [reflexivity | discriminate]). }
  rewrite Et. cbn [fst snd].
  apply transfer_step_raise in Et as [Hev Hcase].
  split; [|split; [|split; [|split; [apply msg_download_failed_url|]]]].
  - exists e. split; [reflexivity|].
    destruct Hcase as [(info' & part' & Hnet' & ->)|[Hd|Hd]].
    + left. rewrite Hnet0 in Hnet'. congruence.
    + now destruct Hp.
    + now right.
  - intros Hn. now rewrite (Hnone Hn).
  - now rewrite Hev, Hev0.
  - unfold net_calls. rewrite Hev, Hev0. reflexivity.
Qed.

End Fetcher.

(** ** [unzip] and [untar]: extraction and the cleanup *)

Section Unpacking.

Context `{L : Libraries}.

Implicit Types (w : world) (ms : list member).

Lemma unzip_unpack path cleanup :
  unzip path cleanup = unpack zip_members zip_targetpath zip_makedir path cleanup.
Proof. reflexivity. Qed.

Lemma untar_unpack path cleanup :
  untar path cleanup = unpack tar_members tar_targetpath tar_makedir path cleanup.
Proof. reflexivity. Qed.

Lemma mkdir_shape p w :
  exists m', snd (mkdir p w) = with_fs w m' /\ dirs_added (fs w) m'
    /\ (forall x, fs w !! x = None -> is_Some (m' !! x) -> x = p).
Proof.
  destruct (mkdir_cases p w) as [[e ->]|[-> Hq]].
  - exists (fs w). cbn. rewrite with_fs_id. split; [reflexivity|].
    split; [apply dirs_added_refl|]. intros x H [n Hn]. congruence.
  - exists (<[p := Dir]> (fs w)). split; [reflexivity|].
    split; [now apply dirs_added_insert|].
    intros x Hx [n Hn]. destruct (decide (p = x)) as [->|Nq]; [reflexivity|].
    rewrite lookup_insert_ne in Hn by exact Nq. congruence.
Qed.


(** Both ways of making the directory of a member only add that
    directory, and when they return it is there. *)
Lemma zip_makedir_shape p w :
  exists m', snd (zip_makedir p w) = with_fs w m' /\ dirs_added (fs w) m'
    /\ (forall x, fs w !! x = None -> is_Some (m' !! x) -> x = p).
Proof.
  unfold zip_makedir, bind, path_isdir.
  destruct (node_at (fs w) p) as [[|c]|]; try apply mkdir_shape.
  exists (fs w). cbn. rewrite with_fs_id. split; [reflexivity|].
  split; [apply dirs_added_refl|]. intros x H [n Hn]. congruence.
Qed.


Lemma tar_makedir_shape p w :
  exists m', snd (tar_makedir p w) = with_fs w m' /\ dirs_added (fs w) m'
    /\ (forall x, fs w !! x = None -> is_Some (m' !! x) -> x = p).
Proof.
  unfold tar_makedir, try_except.
  destruct (mkdir_cases p w) as [[e E]|[E Hq]].
  - rewrite E. exists (fs w).
    assert (snd (match exn_cls e with
                 | FileExistsError => ret tt
                 | _ => raise e
                 end w) = with_fs w (fs w)) as ->
        by (rewrite with_fs_id; now destruct (exn_cls e)).
    split; [reflexivity|]. split; [apply dirs_added_refl|].
    intros x H [n Hn]. congruence.
  - pose proof (mkdir_shape p w) as H. now rewrite E in *.
Qed.


Section Extract.

Variable makedir : string -> M unit.

Hypothesis makedir_shape : forall p w,
  exists m', snd (makedir p w) = with_fs w m' /\ dirs_added (fs w) m'
    /\ (forall x, fs w !! x = None -> is_Some (m' !! x) -> x = p).

Hypothesis makedir_made : forall p w,
  fst (makedir p w) = Ok tt -> exists_in (fs (snd (makedir p w))) p = true.

Variable targetpath_of : string -> string -> string.

(** The directories above the target: what is there afterwards was there,
    or is a new directory. *)
Lemma upperdirs_shape (upperdirs : string) w :
  exists m1,
    snd ((ex <- path_exists upperdirs ;;
          if negb (PyStr.is_empty upperdirs) && negb ex
          then makedirs upperdirs else ret tt) w) = with_fs w m1
    /\ dirs_added (fs w) m1
    /\ (forall x, fs w !! x = None -> is_Some (m1 !! x) ->
                  In x (dir_prefixes "" upperdirs)).
Proof.
  unfold bind, path_exists. destruct (negb _ && negb _).
  - unfold makedirs. destruct (PyStr.is_empty upperdirs).
    + exists (fs w). cbn. rewrite with_fs_id. split; [reflexivity|].
      split; [apply dirs_added_refl|]. intros x H [n Hn]. congruence.
    + apply makedirs_from_shape.
  - exists (fs w). cbn. rewrite with_fs_id. split; [reflexivity|].
    split; [apply dirs_added_refl|]. intros x H [n Hn]. congruence.
Qed.

Lemma extract_member_eq (targetpath : string) (m : member) w :
  extract_member makedir targetpath m w
  = match (if negb (PyStr.is_empty (OsPath.dirname targetpath))
              && negb (exists_in (fs w) (OsPath.dirname targetpath))
           then makedirs (OsPath.dirname targetpath) else ret tt) w with
    | (Ok _, w1) =>
        match member_entry m with
        | Data data => write_file targetpath data
        | Directory => makedir targetpath
        | Undecodable None => raise (Exn BadArchive (msg_bad_archive targetpath))
        | Undecodable (Some part) =>
            write_file targetpath part ;;
            raise (Exn BadArchive (msg_bad_archive targetpath))
        end w1
    | (Raise e, w1) => (Raise e, w1)
    end.
Proof. reflexivity. Qed.

(** One member: only the file system changes; nothing goes away; a file
    that was not there holds what was written for the member, at the
    target; a new directory is the target or a directory above it. *)
Lemma extract_member_shape (targetpath : string) m w :
  exists m',
    snd (extract_member makedir targetpath m w) = with_fs w m'
    /\ grows (fs w) m'
    /\ (forall q d, m' !! q = Some (File d) ->
          fs w !! q = Some (File d)
          \/ (q = targetpath
              /\ (member_entry m = Data d \/ member_entry m = Undecodable (Some d))))
    /\ (forall x, fs w !! x = None -> is_Some (m' !! x) ->
          x = targetpath \/ In x (dir_prefixes "" (OsPath.dirname targetpath))).
Proof.
  destruct (upperdirs_shape (OsPath.dirname targetpath) w) as (m1 & E1 & D1 & N1).
  assert (forall m2, dirs_added m1 m2 ->
            (forall x, m1 !! x = None -> is_Some (m2 !! x) -> x = targetpath) ->
            grows (fs w) m2
            /\ (forall q d, m2 !! q = Some (File d) ->
                  fs w !! q = Some (File d)
                  \/ (q = targetpath
                      /\ (member_entry m = Data d
                          \/ member_entry m = Undecodable (Some d))))
            /\ (forall x, fs w !! x = None -> is_Some (m2 !! x) ->
                  x = targetpath \/ In x (dir_prefixes "" (OsPath.dirname targetpath))))
    as Hdirs.
  { intros m2 D2 N2. pose proof (dirs_added_trans _ _ _ D1 D2) as D.
    split; [now apply dirs_added_grows|]. split.
    - intros q d Hq. left. now apply D.
    - intros x Hx Hs. destruct (m1 !! x) eqn:Ex.
      + right. apply N1; [exact Hx | now rewrite Ex].
      + left. now apply N2. }
  assert (grows (fs w) m1
          /\ (forall q d, m1 !! q = Some (File d) ->
                fs w !! q = Some (File d)
                \/ (q = targetpath
                    /\ (member_entry m = Data d
                        \/ member_entry m = Undecodable (Some d))))
          /\ (forall x, fs w !! x = None -> is_Some (m1 !! x) ->
                x = targetpath \/ In x (dir_prefixes "" (OsPath.dirname targetpath))))
    as Hsame.
  { apply Hdirs; [apply dirs_added_refl|]. intros x Hx [n Hn]. congruence. }
  assert (forall data,
            member_entry m = Data data \/ member_entry m = Undecodable (Some data) ->
            exists m2,
              snd (write_file targetpath data (with_fs w m1)) = with_fs w m2
              /\ grows (fs w) m2
              /\ (forall q d, m2 !! q = Some (File d) ->
                    fs w !! q = Some (File d)
                    \/ (q = targetpath
                        /\ (member_entry m = Data d
                            \/ member_entry m = Undecodable (Some d))))
              /\ (forall x, fs w !! x = None -> is_Some (m2 !! x) ->
                    x = targetpath
                    \/ In x (dir_prefixes "" (OsPath.dirname targetpath))))
    as Hwrite.
  { intros data Hdata.
    destruct Hsame as (G1 & O1 & N1').
    destruct (write_file_cases targetpath data (with_fs w m1))
      as [(e & -> & _)|(-> & _ & Hd)]; cbn [snd fs with_fs].
    - exists m1. split; [reflexivity|]. split; [exact G1|]. split; [exact O1 | exact N1'].
    - exists (<[targetpath := File data]> m1). split; [reflexivity|].
      cbn [fs with_fs] in Hd. split; [|split].
      + eapply grows_trans; [exact G1|]. split.
        * intros q [c Hc]. destruct (decide (targetpath = q)) as [->|N].
          -- exists data. apply lookup_insert_eq.
          -- exists c. now rewrite lookup_insert_ne.
        * intros q Hq. rewrite lookup_insert_ne; [exact Hq | congruence].
      + intros q d. destruct (decide (targetpath = q)) as [->|N].
        * rewrite lookup_insert_eq. intros [= <-]. now right.
        * rewrite lookup_insert_ne by exact N. apply O1.
      + intros x Hx Hs. destruct (decide (targetpath = x)) as [->|N]; [now left|].
        rewrite lookup_insert_ne in Hs by exact N. now apply N1'. }
  unfold bind at 1 in E1. unfold path_exists in E1. cbn beta iota in E1.
  rewrite extract_member_eq.
  destruct ((if negb (PyStr.is_empty (OsPath.dirname targetpath))
                && negb (exists_in (fs w) (OsPath.dirname targetpath))
             then makedirs (OsPath.dirname targetpath) else ret tt) w)
    as [[[]|e] w1]; cbn [snd] in E1; subst w1;
    [|exists m1; split; [reflexivity | exact Hsame]].
  destruct (member_entry m) as [data| |[part|]] eqn:Em.
  - apply Hwrite. now left.
  - destruct (makedir_shape targetpath (with_fs w m1)) as (m2 & E2 & D2 & N2).
    exists m2. split; [rewrite E2; reflexivity|]. now apply Hdirs.
  - destruct (Hwrite part (or_intror eq_refl)) as (m2 & E2 & H2).
    exists m2. split; [|exact H2]. unfold bind, raise.
    destruct (write_file targetpath part (with_fs w m1)) as [[[]|e] w2];
      cbn [snd] in *; exact E2.
  - exists m1. split; [reflexivity | exact Hsame].
Qed.


Lemma extractall_cons m ms target w :
  extractall targetpath_of makedir (m :: ms) target w
  = match extract_member makedir (targetpath_of target (member_name m)) m w with
    | (Ok _, w') => extractall targetpath_of makedir ms target w'
    | (Raise e, w') => (Raise e, w')
    end.
Proof. reflexivity. Qed.

(** All members: only the file system changes; nothing goes away; a file
    that was not there holds what was written for a member, at its
    target; a new directory is a target or a directory above one. *)
Lemma extractall_shape ms target : forall w,
  exists m',
    snd (extractall targetpath_of makedir ms target w) = with_fs w m'
    /\ grows (fs w) m'
    /\ (forall q d, m' !! q = Some (File d) ->
          fs w !! q = Some (File d)
          \/ exists m, In m ms /\ q = targetpath_of target (member_name m)
                       /\ (member_entry m = Data d
                           \/ member_entry m = Undecodable (Some d)))
    /\ (forall x, fs w !! x = None -> is_Some (m' !! x) ->
          exists m, In m ms
            /\ (x = targetpath_of target (member_name m)
                \/ In x (dir_prefixes ""
                           (OsPath.dirname (targetpath_of target (member_name m)))))).
Proof.
  induction ms as [|m ms IH]; intros w.
  - exists (fs w). cbn. rewrite with_fs_id. split; [reflexivity|].
    split; [apply grows_refl|]. split; [auto|]. intros x H [n Hn]. congruence.
  - rewrite extractall_cons.
    destruct (extract_member_shape (targetpath_of target (member_name m)) m w)
      as (m1 & E1 & G1 & O1 & N1).
    destruct (extract_member makedir _ m w) as [[[]|e] w1]; cbn [snd] in E1; subst w1.
    + destruct (IH (with_fs w m1)) as (m2 & E2 & G2 & O2 & N2).
      cbn [fs with_fs] in *. exists m2. split; [rewrite E2; reflexivity|].
      split; [exact (grows_trans _ _ _ G1 G2)|]. split.
      * intros q d Hq. apply O2 in Hq as [Hq|(m0 & Hin & Hq)].
        -- apply O1 in Hq as [Hq|[-> Hq]]; [now left|].
           right. exists m. split; [now left | auto].
        -- right. exists m0. split; [now right | auto].
      * intros x Hx Hs. destruct (m1 !! x) eqn:Ex.
        -- exists m. split; [now left|]. apply N1; [exact Hx | now rewrite Ex].
        -- destruct (N2 x Ex Hs) as (m0 & Hin & Hq). exists m0. split; [now right | auto].
    + exists m1. split; [reflexivity|]. split; [exact G1|]. split.
      * intros q d Hq. apply O1 in Hq as [Hq|[-> Hq]]; [now left|].
        right. exists m. split; [now left | auto].
      * intros x Hx Hs. exists m. split; [now left | now apply N1].
Qed.

Lemma extractall_grows ms target w :
  grows (fs w) (fs (snd (extractall targetpath_of makedir ms target w))).
Proof. destruct (extractall_shape ms target w) as (m' & -> & G & _). exact G. Qed.

Lemma extractall_frame ms target w :
  snd (extractall targetpath_of makedir ms target w)
  = with_fs w (fs (snd (extractall targetpath_of makedir ms target w))).
Proof. destruct (extractall_shape ms target w) as (m' & -> & _). reflexivity. Qed.


Variable reader : string -> option (list member).

Lemma open_archive_spec path w :
  open_archive reader path w
  = match fs w !! path with
    | Some (File c) =>
        match reader c with
        | Some ms => (Ok ms, log (EOpenArchive path) w)
        | None => (Raise (Exn BadArchive (msg_bad_archive path)), log (EOpenArchive path) w)
        end
    | Some Dir => (Raise (Exn IsADirectoryError (msg_is_a_directory path)),
                   log (EOpenArchive path) w)
    | None => (Raise (Exn FileNotFoundError (msg_no_such_file path)),
               log (EOpenArchive path) w)
    end.
Proof.
  unfold open_archive, read_file. cbn [fs log].
  destruct (fs w !! path) as [[|c]|]; try reflexivity.
Qed.

Lemma unpack_cleanup path w :
  let r := unpack reader targetpath_of makedir path true w in
  (fst r = Ok tt -> fs (snd r) !! path = None)
  /\ (forall e, fst r = Raise e -> is_file (fs w) path -> is_file (fs (snd r)) path).
Proof.
  cbv zeta. unfold unpack, bind. rewrite open_archive_spec.
  destruct (fs w !! path) as [[|c]|] eqn:E;
    [split; [discriminate | auto] | | split; [discriminate | auto]].
  destruct (reader c) as [ms|]; [|split; [discriminate | auto]].
  pose proof (extractall_grows ms (OsPath.dirname path) (log (EOpenArchive path) w))
    as [Hk _]. specialize (Hk path).
  destruct (extractall targetpath_of makedir ms (OsPath.dirname path)
                       (log (EOpenArchive path) w))
    as [[[]|e] w2]; cbn [snd fst fs log] in *; [|split; [discriminate | auto]].
  unfold os_remove.
  destruct (fs w2 !! path) as [[|c']|] eqn:E2; cbn [fst snd fs with_fs].
  - split; [discriminate|]. intros _ _ H. now apply Hk.
  - split; [intros _; apply lookup_delete_eq | discriminate].
  - split; [discriminate|]. intros _ _ H. now apply Hk.
Qed.

(** Unpacking records the opening of the archive and nothing else. *)
Lemma unpack_events path cleanup w :
  events (snd (unpack reader targetpath_of makedir path cleanup w))
  = EOpenArchive path :: events w.
Proof.
  unfold unpack, bind. rewrite open_archive_spec.
  destruct (fs w !! path) as [[|c]|]; try reflexivity.
  destruct (reader c) as [ms|]; [|reflexivity].
  pose proof (extractall_frame ms (OsPath.dirname path) (log (EOpenArchive path) w)) as Fr.
  destruct (extractall targetpath_of makedir ms (OsPath.dirname path)
                       (log (EOpenArchive path) w))
    as [[[]|e] w2]; cbn [snd] in *; [|now rewrite Fr].
  destruct cleanup; [|cbn; now rewrite Fr].
  unfold os_remove. destruct (fs w2 !! path) as [[|c']|]; cbn [snd]; now rewrite Fr.
Qed.

(** Unpacking removes nothing but the archive, and that only with
    [cleanup]. *)
Lemma unpack_kept path cleanup w :
  let r := unpack reader targetpath_of makedir path cleanup w in
  (forall q, is_file (fs w) q -> cleanup = false \/ q <> path ->
             is_file (fs (snd r)) q)
  /\ (forall q, fs w !! q = Some Dir -> fs (snd r) !! q = Some Dir).
Proof.
  assert (forall m' : gmap string node,
            grows (fs w) m' ->
            (forall q, is_file (fs w) q -> cleanup = false \/ q <> path -> is_file m' q)
            /\ (forall q, fs w !! q = Some Dir -> m' !! q = Some Dir)) as Same.
  { intros m' [Gf Gd]. split; auto. }
  cbv zeta. unfold unpack, bind. rewrite open_archive_spec.
  destruct (fs w !! path) as [[|c]|] eqn:E.
  - apply (Same (fs w)), grows_refl.
  - destruct (reader c) as [ms|]; [|apply (Same (fs w)), grows_refl].
    pose proof (extractall_grows ms (OsPath.dirname path) (log (EOpenArchive path) w))
      as G.
    destruct (extractall targetpath_of makedir ms (OsPath.dirname path)
                         (log (EOpenArchive path) w))
      as [[[]|e] w2]; cbn [snd fst fs log] in *; [|exact (Same _ G)].
    destruct cleanup; [|exact (Same _ G)].
    unfold os_remove.
    destruct (fs w2 !! path) as [[|c']|] eqn:E2; try exact (Same _ G).
    destruct G as [Gf Gd]. cbn [snd fs with_fs]. split.
    + intros q Hq [Hcl|Hne]; [discriminate|].
      destruct (Gf q Hq) as [d Hd]. exists d. now rewrite lookup_delete_ne by congruence.
    + intros q Hq. apply Gd in Hq.
      rewrite lookup_delete_ne; [exact Hq | congruence].
  - apply (Same (fs w)), grows_refl.
Qed.


End Extract.

(** C7: with [cleanup], [unzip] and [untar] remove the archive after the
    members were extracted, and only then: when the call returns, there is
    nothing at the path of the archive; when it raises (the archive cannot
    be read, or a member cannot be written), the archive file is still
    there. *)
Theorem cleanup_only_after_extraction (path : string) (w : world) :
  is_file (fs w) path ->
  (fst (unzip path true w) = Ok tt -> fs (snd (unzip path true w)) !! path = None)
  /\ (forall e, fst (unzip path true w) = Raise e ->
                is_file (fs (snd (unzip path true w))) path)
  /\ (fst (untar path true w) = Ok tt -> fs (snd (untar path true w)) !! path = None)
  /\ (forall e, fst (untar path true w) = Raise e ->
                is_file (fs (snd (untar path true w))) path).
Proof.
  intros Hf. rewrite unzip_unpack, untar_unpack.
  destruct (unpack_cleanup zip_makedir zip_makedir_shape zip_targetpath zip_members path w)
    as [Hz1 Hz2].
  destruct (unpack_cleanup tar_makedir tar_makedir_shape tar_targetpath tar_members path w)
    as [Ht1 Ht2].
  repeat split; eauto.
Qed.

End Unpacking.

(** ** The names of members and where they lead *)

Section MemberNames.

Local Open Scope nat_scope.
























End MemberNames.

(** ** [unzip] and [untar]: where the members go *)

Section Placement.

Context `{L : Libraries}.

Implicit Types (w : world) (ms : list member).


End Placement.

(** ** [downloader]: the groups and their order *)

Section Groups.

Context `{L : Libraries}.

Lemma in_keys_lookup (download : remotes) (k : string) :
  in_keys k download = true -> exists r, dict_lookup download k = Some r.
Proof.
  unfold in_keys, dict_keys.
  induction download as [|[k' r] rest IH]; cbn [map existsb dict_lookup fst];
    [discriminate|].
  rewrite (String.eqb_sym k k'). destruct (String.eqb k' k); [eauto | exact IH].
Qed.

(** The loop of lines 85-93 appends the remote file of each key to the list
    of its group, in the order of the keys. *)
Lemma partition_downloads_groups (download : remotes) (objs : list string) :
  (forall k, In k objs -> in_keys k download = true) ->
  forall zs ts ps w,
    partition_downloads download objs zs ts ps w
    = (Ok ((zs ++ of_group Zip download objs)%list,
           (ts ++ of_group Tar download objs)%list,
           (ps ++ of_group Plain download objs)%list), w).
Proof.
  induction objs as [|k objs IH]; intros Hk zs ts ps w.
  - cbn [partition_downloads of_group]. now rewrite !app_nil_r.
  - cbn [partition_downloads of_group]. unfold bind, dict_get.
    destruct (in_keys_lookup download k) as [r Hr]; [apply Hk; now left|].
    rewrite Hr. cbn [ret].
    assert (forall k', In k' objs -> in_keys k' download = true) as Hk'
        by (intros k' Hin; apply Hk; now right).
    destruct (download_group r); rewrite (IH Hk'); cbn [app];
      now rewrite <- ?app_assoc.
Qed.

(** Lines 81-105, had they been reached: the zip group first, then the tar
    group, then the plain files, each remote file downloaded and, in the
    first two groups, unpacked at once with the [cleanup] flag. *)
Lemma download_all_order (download : remotes) (objs : list string)
      (save_dir : string) (force cleanup : bool) (w : world) :
  (forall k, In k objs -> in_keys k download = true) ->
  download_all download objs save_dir force cleanup w
  = (for_each (of_group Zip download objs)
       (fun r => p <- download_from_remote r save_dir force ;; unzip p cleanup) ;;
     for_each (of_group Tar download objs)
       (fun r => p <- download_from_remote r save_dir force ;; untar p cleanup) ;;
     for_each (of_group Plain download objs)
       (fun r => download_from_remote r save_dir force ;; ret tt)) w.
Proof.
  intros Hk. unfold download_all. unfold bind at 1.
  now rewrite partition_downloads_groups.
Qed.

End Groups.


(** ** Runs on the fixtures *)

Section Runs.

Local Open Scope nat_scope.

Example group_zip : download_group remote_zip = Zip.
Proof. reflexivity. Qed.

Example group_tar :
  download_group {| filename := "a.tar"; url := "http://x/a.tar";
                    checksum := "0"; destination_dir := None |} = Tar.
Proof. reflexivity. Qed.

Example group_targz : download_group remote_targz = Plain.
Proof. reflexivity. Qed.

(** The loop of lines 85-93 on a dict with a zip and a gzip-compressed tar:
    the latter ends in [file_downloads]. *)
Example partition_targz :
  fst (partition_downloads [("audio", remote_zip); ("notes", remote_targz)]
                           ["audio"; "notes"] [] [] [] empty_world)
  = Ok ([remote_zip], [], [remote_targz]).
Proof. reflexivity. Qed.

(** Lines 81-105 alone download and unpack a zip file. *)
Example download_all_zip :
  let r := download_all [("audio", remote_zip)] ["audio"] "/tmp/out" false false
                        empty_world in
  fst r = Ok tt
  /\ fs (snd r) !! "/tmp/out/a.zip" = Some (File "PK:good")
  /\ fs (snd r) !! "/tmp/out/data/x.csv" = Some (File "1,2")
  /\ events (snd r) = [EOpenArchive "/tmp/out/a.zip";
                       EUrlretrieve "http://x/a.zip" "/tmp/out/a.zip"].
Proof. vm_compute. repeat split. Qed.

(** [os.makedirs] as lines 53-54 and 144-145 meet it: an empty path and a
    path below a regular file raise, and nothing is printed. *)
Example save_dir_empty :
  downloader "" None PyNone (Some "hello") false false empty_world
  = (Raise (Exn FileNotFoundError "[Errno 2] No such file or directory: ''"),
     empty_world).
Proof. reflexivity. Qed.

Example save_dir_below_file :
  downloader "f/sub" None PyNone (Some "hello") false false world_regular_file
  = (Raise (Exn NotADirectoryError "[Errno 20] Not a directory: 'f/sub'"),
     world_regular_file).
Proof. vm_compute. reflexivity. Qed.

Example download_dir_empty :
  let r := download_from_remote remote_zip "" false empty_world in
  fst r = Raise (Exn FileNotFoundError "[Errno 2] No such file or directory: ''")
  /\ net_calls (snd r) = 0.
Proof. vm_compute. split; reflexivity. Qed.

(** C10, at a dict with one zip file and no [partial_download]: the call
    raises at line 77; the remote file is neither downloaded nor unpacked,
    and no group is processed. *)
Theorem downloader_stops_before_groups :
  let r := downloader "/tmp/out" (Some [("audio", remote_zip)]) PyNone None
                      false false empty_world in
  fst r = Raise (Exn AttributeError "'NoneType' object has no attribute 'keys'")
  /\ events (snd r) = []
  /\ fs (snd r) !! "/tmp/out/a.zip" = None.
Proof. vm_compute. repeat split. Qed.

(** C3 at [acquire({}, info_message="hello")]: the call raises at line 77
    and has printed nothing, whereas with [None] for the dict the message
    is printed. *)
Example empty_dict_example :
  let empty := downloader "/tmp/out" (Some []) PyNone (Some "hello")
                          false false empty_world in
  let absent := downloader "/tmp/out" None PyNone (Some "hello")
                           false false empty_world in
  fst empty = Raise (Exn AttributeError "'NoneType' object has no attribute 'keys'")
  /\ events (snd empty) = []
  /\ fst absent = Ok tt
  /\ events (snd absent) = [EPrint "hello"].
Proof. vm_compute. repeat split. Qed.

Lemma made_out : made "/tmp/out" empty_world.
Proof. vm_compute. reflexivity. Qed.

Lemma start_message_raises_witness :
  validated [("audio", remote_zip)] (PyList ["audio"])
  /\ made "/tmp/out" empty_world
  /\ fst (downloader "/tmp/out" (Some [("audio", remote_zip)]) (PyList ["audio"])
                     None false false empty_world)
     = Raise (Exn AttributeError "'list' object has no attribute 'keys'").
Proof.
  assert (validated [("audio", remote_zip)] (PyList ["audio"])) as Hv.
  { right. exists ["audio"]. split; [reflexivity|].
    intros k [<-|[]]. reflexivity. }
  split; [exact Hv|]. split; [exact made_out|].
  exact (proj1 (start_message_raises "/tmp/out" [("audio", remote_zip)]
                  (PyList ["audio"]) None false false empty_world Hv) made_out).
Defined.

Lemma unknown_key_fails_fast_witness :
  In "nope" ["nope"] /\ in_keys "nope" [("audio", remote_zip)] = false
  /\ made "/tmp/out" empty_world
  /\ fst (downloader "/tmp/out" (Some [("audio", remote_zip)]) (PyList ["nope"])
                     None false false empty_world)
     = Raise (Exn KeyError msg_key_error).
Proof.
  split; [now left|]. split; [reflexivity|]. split; [exact made_out|].
  exact (proj1 (unknown_key_fails_fast "/tmp/out" [("audio", remote_zip)] ["nope"]
                  None false false empty_world "nope"
                  (or_introl eq_refl) eq_refl) made_out).
Defined.

(** Two calls for a file whose checksum is out of date: both raise for the
    checksum, and there is one transfer. *)
Lemma transfer_iff_missing_or_forced_witness :
  well_named remote_stale
  /\ dir_ready "/tmp/out" empty_world
  /\ simple_name (filename remote_stale)
  /\ net_calls (snd (download_from_remote remote_stale "/tmp/out" false
                       (snd (download_from_remote remote_stale "/tmp/out" false
                                                  empty_world)))) = 1.
Proof.
  assert (well_named remote_stale) as Hw by (split; reflexivity).
  assert (dir_ready "/tmp/out" empty_world) as Hd
      by (split; vm_compute; reflexivity).
  assert (simple_name (filename remote_stale)) as Hs by (split; reflexivity).
  split; [exact Hw|]. split; [exact Hd|]. split; [exact Hs|].
  pose proof (transfer_iff_missing_or_forced remote_stale "/tmp/out" false
                empty_world Hw) as H.
  cbv zeta in H. destruct H as (_ & _ & _ & _ & H).
  specialize (H "PK:good" eq_refl Hd eq_refl Hs eq_refl).
  destruct H as (_ & _ & H & _). exact H.
Defined.

Example stale_checksum_raises :
  exists msg,
    fst (download_from_remote remote_stale "/tmp/out" false empty_world)
    = Raise (Exn IOError msg).
Proof. eexists. vm_compute. reflexivity. Qed.


Lemma cleanup_only_after_extraction_witness :
  is_file (fs world_archive) "save_root/sub/archive.zip"
  /\ fs (snd (unzip "save_root/sub/archive.zip" true world_archive))
        !! "save_root/sub/archive.zip" = None
  /\ is_file (fs (snd (unzip "save_root/sub/archive.zip" true world_damaged)))
             "save_root/sub/archive.zip".
Proof.
  assert (is_file (fs world_archive) "save_root/sub/archive.zip") as Ha
      by (exists "PK:good"; vm_compute; reflexivity).
  assert (is_file (fs world_damaged) "save_root/sub/archive.zip") as Hd
      by (exists "PK:damaged"; vm_compute; reflexivity).
  split; [exact Ha|]. split.
  - apply (proj1 (cleanup_only_after_extraction "save_root/sub/archive.zip"
                    world_archive Ha)).
    vm_compute. reflexivity.
  - apply (proj1 (proj2 (cleanup_only_after_extraction "save_root/sub/archive.zip"
                           world_damaged Hd))
             (Exn BadArchive (msg_bad_archive "save_root/sub/bad.bin"))).
    vm_compute. reflexivity.
Defined.



(** The example of the placement: the member [data/x.csv] of
    [save_root/sub/archive.zip] is written to [save_root/sub/data/x.csv],
    and nothing is written below [save_root/sub/archive]. *)
Example placement_example :
  let r := unzip "save_root/sub/archive.zip" false world_archive in
  fst r = Ok tt
  /\ fs (snd r) !! "save_root/sub/data/x.csv" = Some (File "1,2")
  /\ fs (snd r) !! "save_root/sub/archive/data/x.csv" = None
  /\ fs (snd r) !! "save_root/sub/archive" = None.
Proof. vm_compute. repeat split. Qed.

(** [zipfile] brings a climbing and an absolute name inside the directory
    of the archive. *)
Example zip_names_brought_inside :
  fs (snd (unzip "save_root/sub/archive.zip" false world_climbing))
     !! "save_root/sub/escape.txt" = Some (File "out")
  /\ fs (snd (unzip "save_root/sub/archive.zip" false world_absolute))
        !! "save_root/sub/outside/escape.txt" = Some (File "out")
  /\ fs (snd (unzip "save_root/sub/archive.zip" false world_absolute))
        !! "/outside/escape.txt" = None.
Proof. vm_compute. repeat split. Qed.


Lemma failed_transfer_surfaces_witness :
  well_named remote_missing
  /\ made (download_dir_of remote_missing "/tmp/out") empty_world
  /\ net empty_world (url remote_missing) = Failed "HTTP Error 404: Not Found" None
  /\ fst (download_from_remote remote_missing "/tmp/out" false empty_world)
     = Raise (Exn URLError "HTTP Error 404: Not Found")
  /\ net_calls (snd (download_from_remote remote_missing "/tmp/out" false empty_world))
     = 1.
Proof.
  assert (well_named remote_missing) as Hw by (split; reflexivity).
  assert (made (download_dir_of remote_missing "/tmp/out") empty_world) as Hm
      by (vm_compute; reflexivity).
  split; [exact Hw|]. split; [exact Hm|]. split; [reflexivity|].
  pose proof (failed_transfer_surfaces remote_missing "/tmp/out" false empty_world
                "HTTP Error 404: Not Found" None Hw Hm eq_refl eq_refl) as H.
  cbv zeta in H. destruct H as (_ & H1 & _ & _ & H2).
  split; [exact (H1 eq_refl) | exact H2].
Defined.

(** C9 as stated fails when the server refuses the connection: the
    exception that reaches the caller is the one of the transport, and its
    text does not name the URL. *)
Lemma fetch_error_omits_url :
  exists e,
    fst (download_from_remote remote_unreachable "/tmp/out" false empty_world) = Raise e
    /\ e = Exn URLError "<urlopen error [Errno 111] Connection refused>"
    /\ PyStr.contains (url remote_unreachable) (exn_msg e) = false.
Proof.
  eexists. split; [vm_compute; reflexivity|]. split; reflexivity.
Qed.

End Runs.

(** * Further properties *)

(** ** The extension of a URL and its group *)

Section Suffix.

Lemma prefix_split (s1 : string) : forall s2,
  String.prefix s1 s2 = true -> exists post, s2 = s1 +:+ post.
Proof.
  induction s1 as [|a s1 IH]; intros s2 H.
  - exists s2. reflexivity.
  - destruct s2 as [|b s2]; [discriminate|]. simpl in H.
    destruct (ascii_dec a b) as [->|]; [|discriminate].
    destruct (IH s2 H) as [post ->]. exists post. reflexivity.
Qed.

(** A string without the character [c] contains no string that starts
    with [c]. *)
Lemma contains_needs_char (c : ascii) (t s : string) :
  PyStr.rfind c s = (-1)%Z -> PyStr.contains (String c t) s = false.
Proof.
  induction s as [|a r IH]; intros H; [reflexivity|].
  cbn [PyStr.rfind PyStr.contains] in *.
  pose proof (rfind_bounds c r) as Hb.
  destruct (Z.leb_spec 0 (PyStr.rfind c r)); [lia|].
  destruct (Ascii.eqb_spec a c) as [->|Hne]; [discriminate|].
  rewrite IH by lia. simpl.
  destruct (ascii_dec c a) as [->|]; [now destruct Hne | reflexivity].
Qed.

(** From its last occurrence on, a string starts with [c] and has no other
    [c]. *)
Lemma slice_from_rfind (c : ascii) (s : string) :
  (0 <= PyStr.rfind c s)%Z ->
  exists rest, PyStr.slice_from s (Z.to_nat (PyStr.rfind c s)) = String c rest
               /\ PyStr.rfind c rest = (-1)%Z.
Proof.
  induction s as [|a r IH]; cbn [PyStr.rfind]; [lia|].
  pose proof (rfind_bounds c r) as Hb.
  destruct (Z.leb_spec 0 (PyStr.rfind c r)) as [Hk|Hk]; intros H.
  - destruct (IH Hk) as (rest & Hs & Hr). exists rest. split; [|exact Hr].
    replace (Z.to_nat (PyStr.rfind c r + 1)) with (S (Z.to_nat (PyStr.rfind c r)))
      by lia.
    exact Hs.
  - destruct (Ascii.eqb_spec a c) as [->|]; [|lia].
    exists r. split; [reflexivity | lia].
Qed.

Lemma splitext_scan_ext (p : string) (dotIndex steps : nat) : forall filenameIndex,
  snd (OsPath.splitext_scan p dotIndex steps filenameIndex) = ""%string
  \/ snd (OsPath.splitext_scan p dotIndex steps filenameIndex)
     = PyStr.slice_from p dotIndex.
Proof.
  induction steps as [|n IH]; intros fi; cbn [OsPath.splitext_scan]; [now left|].
  destruct (negb _); [now right | apply IH].
Qed.

(** The extension [os.path.splitext] yields is empty, or a dot followed by
    characters that are not dots. *)
Lemma splitext_ext_shape (p : string) :
  snd (OsPath.splitext p) = ""%string
  \/ exists rest, snd (OsPath.splitext p) = String "." rest
                  /\ PyStr.rfind "." rest = (-1)%Z.
Proof.
  unfold OsPath.splitext.
  pose proof (rfind_bounds OsPath.sep p) as Hs.
  destruct (Z.ltb_spec (PyStr.rfind OsPath.sep p) (PyStr.rfind OsPath.extsep p));
    [|now left].
  destruct (splitext_scan_ext p (Z.to_nat (PyStr.rfind OsPath.extsep p))
              (Z.to_nat (PyStr.rfind OsPath.extsep p - (PyStr.rfind OsPath.sep p + 1)))
              (Z.to_nat (PyStr.rfind OsPath.sep p + 1))) as [->| ->]; [now left|].
  right. apply slice_from_rfind. unfold OsPath.extsep, OsPath.sep in *. lia.
Qed.

(** On such an extension, [sub in extension] for a [sub] that starts with
    a dot is [extension.startswith(sub)]. *)
Lemma contains_dotted_ext (t p : string) :
  PyStr.contains (String "." t) (snd (OsPath.splitext p))
  = String.prefix (String "." t) (snd (OsPath.splitext p)).
Proof.
  destruct (splitext_ext_shape p) as [->|(rest & -> & Hr)]; [reflexivity|].
  cbn [PyStr.contains]. rewrite (contains_needs_char "." t rest Hr).
  apply orb_false_r.
Qed.

(** On line 90, ['.tar.gz' in extension] is false for every URL; the group
    of a remote file is decided by how the last suffix of its URL begins:
    [.zip] for the zip group, [.tar] for the tar group, the plain files
    otherwise. *)
Theorem group_by_last_suffix (r : RemoteFileMetadata) :
  let extension := snd (OsPath.splitext (url r)) in
  PyStr.contains ".tar.gz" extension = false
  /\ download_group r
     = if String.prefix ".zip" extension then Zip
       else if String.prefix ".tar" extension then Tar
       else Plain.
Proof.
  cbv zeta.
  assert (PyStr.contains ".tar.gz" (snd (OsPath.splitext (url r))) = false) as Hdead.
  { rewrite contains_dotted_ext.
    destruct (splitext_ext_shape (url r)) as [->|(rest & -> & Hr)]; [reflexivity|].
    destruct (String.prefix ".tar.gz" (String "." rest)) eqn:E; [|reflexivity].
    apply prefix_split in E as [post E]. injection E as ->.
    rewrite (rfind_app "." "tar.gz" post) in Hr.
    pose proof (rfind_bounds "." post).
    destruct (Z.leb_spec 0 (PyStr.rfind "." post)); [lia | discriminate]. }
  split; [exact Hdead|].
  unfold download_group, extension_group.
  rewrite Hdead, !contains_dotted_ext. reflexivity.
Qed.

End Suffix.

(** ** [downloader]: the selection, and [save_dir] *)

Section Directories.

Context `{L : Libraries}.

Implicit Types (w : world).

Lemma msg_type_error_names (a : pyarg) :
  PyStr.contains (type_name a) (msg_type_error a) = true.
Proof. unfold msg_type_error. do 2 apply contains_app_r. apply contains_head. Qed.

(** Where [save_dir] is there or can be made, a [partial_download] that is
    neither [None] nor a list is refused with a [TypeError] that names its
    type, whatever the keys: a dict of keys of [download] is refused as
    well.  Nothing is printed or transferred. *)
Theorem selection_must_be_list (save_dir : string) (download : remotes)
        (info_message : option string) (force_overwrite cleanup : bool) (w : world)
        (partial_download : pyarg) :
  made save_dir w ->
  match partial_download with
  | PyNone | PyList _ => True
  | PyDict _ | PyOther _ =>
      let r := downloader save_dir (Some download) partial_download info_message
                          force_overwrite cleanup w in
      fst r = Raise (Exn TypeError (msg_type_error partial_download))
      /\ PyStr.contains (type_name partial_download)
                        (msg_type_error partial_download) = true
      /\ events (snd r) = events w
      /\ fs (snd r) = fs (snd (ensure save_dir w))
  end.
Proof.
  intros Hm.
  destruct partial_download as [|keys|keys|ty]; [exact I | exact I | |];
    cbv zeta; (split; [|split; [apply msg_type_error_names|]]);
    try (rewrite dict_download_silent, ensure_events; split; reflexivity);
    unfold downloader; rewrite ensure_step, (made_ensure _ _ Hm); reflexivity.
Qed.

(** What a call of [downloader] leaves of the file system is what lines
    53-54 leave. *)
Lemma downloader_fs (save_dir : string) (download : option remotes)
      (partial_download : pyarg) (info_message : option string)
      (force_overwrite cleanup : bool) (w : world) :
  fs (snd (downloader save_dir download partial_download info_message
                      force_overwrite cleanup w))
  = fs (snd (ensure save_dir w)).
Proof.
  destruct download as [download|]; [now rewrite dict_download_silent|].
  unfold downloader. rewrite ensure_step.
  destruct (ensure save_dir w) as [[[]|e] w1]; [|reflexivity].
  now destruct info_message.
Qed.

(** Every call of [downloader] keeps every file and directory that was
    there; where [save_dir] is there or can be made, it is there after the
    call, also after a call that raises. *)
Theorem downloader_creates_save_dir (save_dir : string) (download : option remotes)
        (partial_download : pyarg) (info_message : option string)
        (force_overwrite cleanup : bool) (w : world) :
  made save_dir w ->
  let r := downloader save_dir download partial_download info_message
                      force_overwrite cleanup w in
  exists_in (fs (snd r)) save_dir = true
  /\ forall q n, fs w !! q = Some n -> fs (snd r) !! q = Some n.
Proof.
  intros Hm r. subst r. rewrite downloader_fs. split.
  - now apply ensure_made_exists.
  - apply (ensure_dirs_added save_dir w).
Qed.

End Directories.

(** ** [download_from_remote]: what is left on disk *)

Section Leftovers.

Context `{L : Libraries}.

Implicit Types (remote : RemoteFileMetadata) (w : world).

Local Open Scope nat_scope.

(** [download_from_remote] writes at the download path only: whatever
    else was there is kept, no other file appears, and a directory is never
    replaced, not even one at the download path. *)
Theorem fetch_writes_one_path remote save_dir force w :
  let r := download_from_remote remote save_dir force w in
  let path := download_path_of remote save_dir in
  (forall q n, q <> path -> fs w !! q = Some n -> fs (snd r) !! q = Some n)
  /\ (forall q c, q <> path -> fs (snd r) !! q = Some (File c) ->
                  fs w !! q = Some (File c))
  /\ (forall q, fs w !! q = Some Dir -> fs (snd r) !! q = Some Dir).
Proof.
  intros r path. subst r path.
  destruct (ensure_dirs_added (download_dir_of remote save_dir) w) as [D1 D2].
  destruct (download_from_remote_fs remote save_dir force w) as [->|(data & -> & Hd)].
  - split; [|split].
    + intros q n _. apply D1.
    + intros q c _. apply D2.
    + intros q. apply D1.
  - split; [|split].
    + intros q n Hq H. rewrite lookup_insert_ne by congruence. now apply D1.
    + intros q c Hq. rewrite lookup_insert_ne by congruence. apply D2.
    + intros q H. apply D1 in H.
      rewrite lookup_insert_ne; [exact H | congruence].
Qed.

(** The download directory comes first: where it is there or can be made,
    it is there after the call, also after one that raises; where it
    cannot be made, the call raises the error of [os.makedirs] and starts
    no transfer. *)
Theorem download_dir_made_first remote save_dir force w :
  let d := download_dir_of remote save_dir in
  let r := download_from_remote remote save_dir force w in
  (made d w -> exists_in (fs (snd r)) d = true)
  /\ (forall e, fst (ensure d w) = Raise e ->
        fst r = Raise e /\ net_calls (snd r) = net_calls w
        /\ fs (snd r) = fs (snd (ensure d w))).
Proof.
  intros d r. subst d r. split.
  - apply download_dir_stays.
  - intros e He. rewrite (download_dir_comes_first _ _ _ _ e He). cbn [fst snd].
    split; [reflexivity|]. split; [apply ensure_net_calls | reflexivity].
Qed.

(** When the server serves a body and the transfer is due, for a file with
    a simple name in a download directory that is there, the body is what
    the download path holds afterwards, and the call returns the path
    exactly when the digest of the body is the expected checksum; a body
    with another digest raises [IOError] and stays on disk. *)
Theorem served_body_is_kept remote save_dir force w body :
  simple_name (filename remote) ->
  dir_ready (download_dir_of remote save_dir) w ->
  PyStr.endswith (download_dir_of remote save_dir) "/" = false ->
  net w (url remote) = Served body ->
  negb (exists_in (fs w) (download_path_of remote save_dir)) || force = true ->
  fs w !! download_path_of remote save_dir <> Some Dir ->
  let r := download_from_remote remote save_dir force w in
  let path := download_path_of remote save_dir in
  fs (snd r) !! path = Some (File body)
  /\ net_calls (snd r) = S (net_calls w)
  /\ fst r = if String.eqb (checksum remote) (md5_hex body) then Ok path
             else Raise (Exn IOError (msg_checksum path (md5_hex body)
                                                   (checksum remote))).
Proof.
  intros Hsn Hready He Hnet Hneed Hd r path. subst r path.
  pose proof Hready as [Hm _].
  assert (well_named remote) as Hwn
      by (destruct Hsn; split; [assumption | now apply no_sep_not_absolute]).
  destruct (ensure_download_path remote save_dir w Hwn) as [_ E2].
  rewrite download_from_remote_steps, (made_ensure _ _ Hm). unfold bind.
  rewrite transfer_step_due by (rewrite E2; exact Hneed).
  rewrite ensure_net, Hnet.
  rewrite (write_download_path remote save_dir w _ body Hsn Hready He Hd).
  rewrite (verify_step_file _ _ _ body) by apply lookup_insert_eq.
  cbn [fst snd fs with_fs]. split; [apply lookup_insert_eq|]. split; [|reflexivity].
  unfold net_calls. cbn [events with_fs log]. rewrite ensure_events. reflexivity.
Qed.

(** A transfer that breaks off after part of the body was written leaves
    that part at the download path.  The next call without
    [force_overwrite] finds it there: it starts no transfer and raises
    [IOError] for the digest of the part. *)
Theorem broken_transfer_leaves_part remote save_dir force w info part :
  simple_name (filename remote) ->
  dir_ready (download_dir_of remote save_dir) w ->
  PyStr.endswith (download_dir_of remote save_dir) "/" = false ->
  net w (url remote) = Failed info (Some part) ->
  negb (exists_in (fs w) (download_path_of remote save_dir)) || force = true ->
  fs w !! download_path_of remote save_dir <> Some Dir ->
  md5_hex part <> checksum remote ->
  let r := download_from_remote remote save_dir force w in
  let path := download_path_of remote save_dir in
  fst r = Raise (Exn URLError info)
  /\ fs (snd r) !! path = Some (File part)
  /\ let r2 := download_from_remote remote save_dir false (snd r) in
     fst r2 = Raise (Exn IOError (msg_checksum path (md5_hex part) (checksum remote)))
     /\ net_calls (snd r2) = net_calls (snd r)
     /\ fs (snd r2) !! path = Some (File part).
Proof.
  intros Hsn Hready He Hnet Hneed Hd Hne r path.
  pose proof Hready as [Hm _].
  assert (well_named remote) as Hwn
      by (destruct Hsn; split; [assumption | now apply no_sep_not_absolute]).
  destruct (ensure_download_path remote save_dir w Hwn) as [_ E2].
  assert (fst r = Raise (Exn URLError info)
          /\ fs (snd r) !! path = Some (File part)) as [H1 H2].
  { subst r path.
    rewrite download_from_remote_steps, (made_ensure _ _ Hm). unfold bind.
    rewrite transfer_step_due by (rewrite E2; exact Hneed).
    rewrite ensure_net, Hnet.
    rewrite (write_download_path remote save_dir w _ part Hsn Hready He Hd).
    cbn [fst snd fs log with_fs]. split; [reflexivity | apply lookup_insert_eq]. }
  split; [exact H1|]. split; [exact H2|]. intros r2. subst r2.
  pose proof (download_dir_stays remote save_dir force w Hm) as Hdir. fold r in Hdir.
  rewrite (download_from_remote_again remote save_dir (snd r) part Hdir H2).
  destruct (String.eqb_spec (checksum remote) (md5_hex part)); [congruence|].
  cbn [fst snd]. split; [reflexivity|]. split; [reflexivity | exact H2].
Qed.

End Leftovers.

(** ** [unzip] and [untar]: failures, and what is kept *)

Section Members.

Context `{L : Libraries}.

Implicit Types (w : world) (ms : list member).

Lemma for_each_app {A} (xs ys : list A) (body : A -> M unit) : forall w,
  for_each (xs ++ ys)%list body w
  = match for_each xs body w with
    | (Ok _, w1) => for_each ys body w1
    | (Raise e, w1) => (Raise e, w1)
    end.
Proof.
  induction xs as [|x xs IH]; intros w; [reflexivity|].
  cbn [app for_each]. unfold bind.
  destruct (body x w) as [[[]|e] w1]; [apply IH | reflexivity].
Qed.

(** [unzip] and [untar] record the opening of the archive and nothing
    else, whatever happens: no transfer is started and nothing is
    printed. *)
Theorem unpacking_is_local (path : string) (cleanup : bool) (w : world) :
  events (snd (unzip path cleanup w)) = EOpenArchive path :: events w
  /\ net_calls (snd (unzip path cleanup w)) = net_calls w
  /\ events (snd (untar path cleanup w)) = EOpenArchive path :: events w
  /\ net_calls (snd (untar path cleanup w)) = net_calls w.
Proof.
  unfold net_calls. rewrite unzip_unpack, untar_unpack.
  rewrite (unpack_events zip_makedir zip_makedir_shape).
  rewrite (unpack_events tar_makedir tar_makedir_shape).
  repeat split.
Qed.



(** [unzip] and [untar] remove nothing but the archive, and that only with
    [cleanup]: every other file is still a file afterwards (its content may
    be that of a member), and every directory is still a directory. *)
Theorem unpacking_removes_archive_only (path : string) (cleanup : bool) (w : world) :
  let kept (r : result unit * world) :=
    (forall q, is_file (fs w) q -> cleanup = false \/ q <> path ->
               is_file (fs (snd r)) q)
    /\ (forall q, fs w !! q = Some Dir -> fs (snd r) !! q = Some Dir) in
  kept (unzip path cleanup w) /\ kept (untar path cleanup w).
Proof.
  cbv zeta. rewrite unzip_unpack, untar_unpack. split.
  - apply (unpack_kept zip_makedir zip_makedir_shape).
  - apply (unpack_kept tar_makedir tar_makedir_shape).
Qed.

End Members.

(** ** [download_zip_file] and [download_tar_file] *)

Section Archives.

Context `{L : Libraries}.

Implicit Types (remote : RemoteFileMetadata) (w : world).

Local Open Scope nat_scope.

Lemma download_zip_file_unpack remote save_dir force cleanup :
  download_zip_file remote save_dir force cleanup
  = (p <- download_from_remote remote save_dir force ;;
     unpack zip_members zip_targetpath zip_makedir p cleanup).
Proof. reflexivity. Qed.

Lemma download_tar_file_unpack remote save_dir force cleanup :
  download_tar_file remote save_dir force cleanup
  = (p <- download_from_remote remote save_dir force ;;
     unpack tar_members tar_targetpath tar_makedir p cleanup).
Proof. reflexivity. Qed.

Lemma all_char_app (c : ascii) (a b : string) :
  PyStr.all_char c (a +:+ b) = PyStr.all_char c a && PyStr.all_char c b.
Proof.
  induction a as [|x a IH]; [reflexivity|].
  rewrite app_str_cons. cbn [PyStr.all_char]. now rewrite IH, andb_assoc.
Qed.

(** The download path of a well-named file is not the root. *)
Lemma download_path_not_root remote save_dir :
  well_named remote -> is_root (download_path_of remote save_dir) = false.
Proof.
  intros [Hne Hrel]. unfold is_root, download_path_of, OsPath.join.
  change (String OsPath.sep "") with "/"%string. rewrite Hrel.
  assert (PyStr.all_char OsPath.sep (filename remote) = false) as Hf.
  { destruct (filename remote) as [|a f]; [discriminate|].
    unfold PyStr.startswith in Hrel. cbn [String.prefix] in Hrel.
    cbn [PyStr.all_char]. unfold OsPath.sep.
    destruct (Ascii.eqb_spec a "/") as [->|N]; [|reflexivity].
    destruct (ascii_dec "/" "/") as [_|N]; [|now destruct N].
    now destruct f. }
  destruct (_ || _); rewrite !all_char_app, Hf, !andb_false_r; reflexivity.
Qed.

Section Reader.

Variable reader : string -> option (list member).
Variable targetpath_of : string -> string -> string.
Variable makedir : string -> M unit.

Hypothesis makedir_shape : forall p w,
  exists m', snd (makedir p w) = with_fs w m' /\ dirs_added (fs w) m'
    /\ (forall x, fs w !! x = None -> is_Some (m' !! x) -> x = p).

(** A download followed by unpacking: the download raised and nothing
    else was done, or it returned the download path, where a file with the
    expected digest is, and that file is unpacked. *)
Lemma fetch_then_unpack remote save_dir force cleanup w :
  let d := download_from_remote remote save_dir force w in
  let z := (p <- download_from_remote remote save_dir force ;;
            unpack reader targetpath_of makedir p cleanup) w in
  let path := download_path_of remote save_dir in
  (exists e, fst d = Raise e /\ z = (Raise e, snd d))
  \/ (fst d = Ok path
      /\ made (download_dir_of remote save_dir) w
      /\ z = unpack reader targetpath_of makedir path cleanup (snd d)
      /\ exists content, fs (snd d) !! path = Some (File content)
                         /\ md5_hex content = checksum remote).
Proof.
  cbv zeta. unfold bind.
  pose proof (download_from_remote_ok remote save_dir force w) as Hok.
  destruct (download_from_remote remote save_dir force w) as [[p|e] w1];
    cbn [fst snd] in *.
  - right. destruct (Hok p eq_refl) as (Hm & -> & content & Hc & Hd). eauto 6.
  - left. eauto.
Qed.

Lemma fetch_then_unpack_net_calls remote save_dir force cleanup w :
  net_calls (snd ((p <- download_from_remote remote save_dir force ;;
                   unpack reader targetpath_of makedir p cleanup) w))
  = net_calls (snd (download_from_remote remote save_dir force w)).
Proof.
  unfold bind.
  destruct (download_from_remote remote save_dir force w) as [[p|e] w1];
    cbn [snd]; [|reflexivity].
  unfold net_calls. now rewrite (unpack_events makedir makedir_shape).
Qed.

(** After a download that was unpacked, the download directory is there. *)
Lemma fetch_then_unpack_dir remote save_dir force cleanup w :
  let z := (p <- download_from_remote remote save_dir force ;;
            unpack reader targetpath_of makedir p cleanup) w in
  fst z = Ok tt ->
  download_dir_of remote save_dir <> download_path_of remote save_dir ->
  exists_in (fs (snd z)) (download_dir_of remote save_dir) = true.
Proof.
  intros z Hok Hne. subst z.
  destruct (fetch_then_unpack remote save_dir force cleanup w)
    as [(e & He & Hz)|(Hd & Hm & Hz & Hc)]; rewrite Hz in *; [discriminate|].
  pose proof (download_dir_stays remote save_dir force w Hm) as Hdir.
  destruct (unpack_kept makedir makedir_shape targetpath_of reader
              (download_path_of remote save_dir) cleanup
              (snd (download_from_remote remote save_dir force w))) as [Kf Kd].
  revert Hdir. unfold exists_in, node_at.
  destruct (PyStr.is_empty _); [discriminate|].
  destruct (fs (snd (download_from_remote remote save_dir force w))
               !! download_dir_of remote save_dir) as [[|c]|] eqn:E.
  - now rewrite (Kd _ E).
  - destruct (Kf _ (ex_intro _ c E) (or_intror Hne)) as [c' ->]. reflexivity.
  - destruct (is_root _); [|discriminate]. intros _.
    match goal with
    | |- context [?m !! download_dir_of remote save_dir] =>
        destruct (m !! download_dir_of remote save_dir)
    end; reflexivity.
Qed.

Lemma cleanup_then_again remote save_dir force cleanup2 w :
  well_named remote ->
  let z1 := (p <- download_from_remote remote save_dir force ;;
             unpack reader targetpath_of makedir p true) w in
  fst z1 = Ok tt ->
  net_calls (snd ((p <- download_from_remote remote save_dir false ;;
                   unpack reader targetpath_of makedir p cleanup2) (snd z1)))
  = S (net_calls (snd z1)).
Proof.
  intros Hwn z1 Hok. rewrite fetch_then_unpack_net_calls.
  assert (download_dir_of remote save_dir <> download_path_of remote save_dir) as Hne.
  { destruct Hwn as [H1 H2].
    pose proof (join_longer (download_dir_of remote save_dir) (filename remote) H1 H2)
      as Hl.
    intros E. unfold download_path_of in E. rewrite <- E in Hl. lia. }
  pose proof (fetch_then_unpack_dir remote save_dir force true w Hok Hne) as Hdir.
  fold z1 in Hdir.
  assert (fs (snd z1) !! download_path_of remote save_dir = None) as Hgone.
  { subst z1.
    destruct (fetch_then_unpack remote save_dir force true w)
      as [(e & He & Hz)|(Hd & Hm & Hz & Hc)]; rewrite Hz in *; [discriminate|].
    now apply (unpack_cleanup makedir makedir_shape). }
  rewrite download_from_remote_net_calls.
  assert (madeb (download_dir_of remote save_dir) (snd z1) = true) as ->.
  { apply madeb_made. unfold made. now rewrite (ensure_noop _ _ Hdir). }
  rewrite (ensure_noop _ _ Hdir). cbn [snd andb].
  unfold exists_in, node_at. rewrite Hgone, (download_path_not_root _ _ Hwn).
  destruct (PyStr.is_empty _); cbn; lia.
Qed.

Lemma kept_then_again remote save_dir force cleanup2 w :
  let z1 := (p <- download_from_remote remote save_dir force ;;
             unpack reader targetpath_of makedir p false) w in
  fst z1 = Ok tt ->
  net_calls (snd ((p <- download_from_remote remote save_dir false ;;
                   unpack reader targetpath_of makedir p cleanup2) (snd z1)))
  = net_calls (snd z1).
Proof.
  intros z1 Hok. rewrite fetch_then_unpack_net_calls.
  assert (is_file (fs (snd z1)) (download_path_of remote save_dir)
          /\ exists_in (fs (snd z1)) (download_dir_of remote save_dir) = true)
    as [[c Hc] Hdir].
  { subst z1.
    destruct (fetch_then_unpack remote save_dir force false w)
      as [(e & He & Hz)|(Hd & Hm & Hz & (content & Hc & _))]; rewrite Hz in *;
      [discriminate|].
    destruct (unpack_kept makedir makedir_shape targetpath_of reader
                (download_path_of remote save_dir) false
                (snd (download_from_remote remote save_dir force w))) as [Kf Kd].
    split.
    - apply Kf; [now exists content | now left].
    - eapply exists_in_grows; [|exact (download_dir_stays remote save_dir force w Hm)].
      split; [|exact Kd]. intros q Hq. apply Kf; [exact Hq | now left]. }
  now rewrite (download_from_remote_again remote save_dir (snd z1) c Hdir Hc).
Qed.

End Reader.

(** [download_zip_file] and [download_tar_file] open the archive only
    after the download returned: when the download raises (a failed
    transfer, a digest that differs), they raise the same exception and do
    nothing more; otherwise the file they open is at the download path and
    has the expected digest. *)
Theorem archive_opened_after_verification remote save_dir force cleanup w :
  let d := download_from_remote remote save_dir force w in
  let path := download_path_of remote save_dir in
  let opened (z : result unit * world) :=
    (exists e, fst d = Raise e /\ fst z = Raise e /\ snd z = snd d)
    \/ (fst d = Ok path
        /\ (exists content, fs (snd d) !! path = Some (File content)
                            /\ md5_hex content = checksum remote)
        /\ events (snd z) = EOpenArchive path :: events (snd d)) in
  opened (download_zip_file remote save_dir force cleanup w)
  /\ opened (download_tar_file remote save_dir force cleanup w).
Proof.
  cbv zeta. rewrite download_zip_file_unpack, download_tar_file_unpack. split.
  - destruct (fetch_then_unpack zip_members zip_targetpath zip_makedir
                remote save_dir force cleanup w)
      as [(e & He & Hz)|(Hd & _ & Hz & Hc)]; rewrite Hz.
    + left. exists e. auto.
    + right. split; [exact Hd|]. split; [exact Hc|].
      apply (unpack_events zip_makedir zip_makedir_shape).
  - destruct (fetch_then_unpack tar_members tar_targetpath tar_makedir
                remote save_dir force cleanup w)
      as [(e & He & Hz)|(Hd & _ & Hz & Hc)]; rewrite Hz.
    + left. exists e. auto.
    + right. split; [exact Hd|]. split; [exact Hc|].
      apply (unpack_events tar_makedir tar_makedir_shape).
Qed.

(** With [cleanup] the archive is gone after a call that returned, so the
    next call transfers it again, also without [force_overwrite]. *)
Theorem cleanup_costs_a_transfer remote save_dir force cleanup2 w :
  well_named remote ->
  (let z1 := download_zip_file remote save_dir force true w in
   fst z1 = Ok tt ->
   net_calls (snd (download_zip_file remote save_dir false cleanup2 (snd z1)))
   = S (net_calls (snd z1)))
  /\ (let t1 := download_tar_file remote save_dir force true w in
      fst t1 = Ok tt ->
      net_calls (snd (download_tar_file remote save_dir false cleanup2 (snd t1)))
      = S (net_calls (snd t1))).
Proof.
  intros Hwn. rewrite !download_zip_file_unpack, !download_tar_file_unpack. split.
  - apply (cleanup_then_again zip_members zip_targetpath zip_makedir zip_makedir_shape
             remote save_dir force cleanup2 w Hwn).
  - apply (cleanup_then_again tar_members tar_targetpath tar_makedir tar_makedir_shape
             remote save_dir force cleanup2 w Hwn).
Qed.

(** Without [cleanup] the archive stays, and the next call without
    [force_overwrite] starts no transfer. *)
Theorem kept_archive_is_reused remote save_dir force cleanup2 w :
  (let z1 := download_zip_file remote save_dir force false w in
   fst z1 = Ok tt ->
   net_calls (snd (download_zip_file remote save_dir false cleanup2 (snd z1)))
   = net_calls (snd z1))
  /\ (let t1 := download_tar_file remote save_dir force false w in
      fst t1 = Ok tt ->
      net_calls (snd (download_tar_file remote save_dir false cleanup2 (snd t1)))
      = net_calls (snd t1)).
Proof.
  rewrite !download_zip_file_unpack, !download_tar_file_unpack. split.
  - apply (kept_then_again zip_members zip_targetpath zip_makedir zip_makedir_shape
             remote save_dir force cleanup2 w).
  - apply (kept_then_again tar_members tar_targetpath tar_makedir tar_makedir_shape
             remote save_dir force cleanup2 w).
Qed.



End Archives.

(** ** Lines 81-105: the three lists, and the first failure *)

Section Partition.

Context `{L : Libraries}.

Lemma of_group_filter (g : group) (download : remotes) (objs : list string) :
  of_group g download objs
  = List.filter (fun r => match download_group r, g with
                          | Zip, Zip | Tar, Tar | Plain, Plain => true
                          | _, _ => false
                          end)
                (flat_map (fun k => match dict_lookup download k with
                                    | Some r => [r]
                                    | None => []
                                    end) objs).
Proof.
  induction objs as [|k objs IH]; [reflexivity|].
  cbn [of_group flat_map]. rewrite List.filter_app, <- IH.
  destruct (dict_lookup download k) as [r|]; [|reflexivity].
  cbn [List.filter]. now destruct (download_group r), g.
Qed.

Lemma of_group_split (download : remotes) (objs : list string) :
  Permutation
    (of_group Zip download objs ++ of_group Tar download objs
     ++ of_group Plain download objs)%list
    (flat_map (fun k => match dict_lookup download k with
                        | Some r => [r]
                        | None => []
                        end) objs).
Proof.
  induction objs as [|k objs IH]; [constructor|].
  cbn [of_group flat_map].
  destruct (dict_lookup download k) as [r|]; [|exact IH].
  destruct (download_group r); cbn [app].
  - now constructor.
  - rewrite <- Permutation_middle. now constructor.
  - rewrite app_assoc, <- Permutation_middle, <- app_assoc. now constructor.
Qed.

(** The loop of lines 85-93 loses nothing and repeats nothing: for keys of
    the dict it always ends, each of the three lists holds the remote files
    of its group in the order of the keys, and together the lists are a
    rearrangement of the remote files of the keys. *)
Theorem three_lists_partition (download : remotes) (objs : list string) (w : world) :
  (forall k, In k objs -> in_keys k download = true) ->
  let selected :=
    flat_map (fun k => match dict_lookup download k with
                       | Some r => [r]
                       | None => []
                       end) objs in
  exists zs ts ps,
    partition_downloads download objs [] [] [] w = (Ok (zs, ts, ps), w)
    /\ zs = List.filter (fun r => match download_group r with Zip => true | _ => false end)
                        selected
    /\ ts = List.filter (fun r => match download_group r with Tar => true | _ => false end)
                        selected
    /\ ps = List.filter (fun r => match download_group r with Plain => true | _ => false end)
                        selected
    /\ Permutation (zs ++ ts ++ ps)%list selected
    /\ List.length selected = List.length objs.
Proof.
  intros Hk selected.
  exists (of_group Zip download objs), (of_group Tar download objs),
         (of_group Plain download objs).
  split; [now rewrite partition_downloads_groups|].
  split; [|split; [|split; [|split]]].
  - rewrite of_group_filter. apply List.filter_ext. intros r. now destruct (download_group r).
  - rewrite of_group_filter. apply List.filter_ext. intros r. now destruct (download_group r).
  - rewrite of_group_filter. apply List.filter_ext. intros r. now destruct (download_group r).
  - apply of_group_split.
  - subst selected. clear w. induction objs as [|k objs IH]; [reflexivity|].
    cbn [flat_map]. rewrite List.length_app.
    destruct (in_keys_lookup download k) as [r ->]; [apply Hk; now left|].
    cbn [List.length]. rewrite IH; [reflexivity|].
    intros k' Hin. apply Hk. now right.
Qed.

(** The first zip file that fails ends the call: the exception is the
    one of that file and the world is as that file left it, so that no
    later zip file, no tar file and no plain file is asked for, wherever
    their keys stand among the keys. *)
Theorem failing_zip_ends_the_call (download : remotes) (objs : list string)
        (save_dir : string) (force cleanup : bool) (w w1 w2 : world)
        (zs1 zs2 : list RemoteFileMetadata) (r : RemoteFileMetadata) (e : exn) :
  (forall k, In k objs -> in_keys k download = true) ->
  of_group Zip download objs = (zs1 ++ r :: zs2)%list ->
  for_each zs1 (fun z => download_zip_file z save_dir force cleanup) w = (Ok tt, w1) ->
  download_zip_file r save_dir force cleanup w1 = (Raise e, w2) ->
  download_all download objs save_dir force cleanup w = (Raise e, w2).
Proof.
  intros Hk Hz H1 Hr. rewrite download_all_order by exact Hk.
  rewrite Hz. unfold bind at 1.
  change (fun r0 => p <- download_from_remote r0 save_dir force ;; unzip p cleanup)
    with (fun z => download_zip_file z save_dir force cleanup).
  rewrite for_each_app, H1. cbn [for_each]. unfold bind at 1. now rewrite Hr.
Qed.

End Partition.

(** ** The progress bar *)

Section Progress.

Local Open Scope Z_scope.

Lemma update_to_n (b bsize : Z) (tsize : option Z) (self : progress_bar) :
  bar_n (update_to b bsize tsize self) = b * bsize.
Proof. unfold update_to, tqdm_update. destruct tsize; cbn; lia. Qed.

(** [update_to] sets the counter to [b * bsize], whatever it was before:
    the position is absolute, a repeated report changes nothing, and after
    any run of reports the counter is that of the last report.  The total
    changes only when a size is given. *)
Theorem progress_is_absolute (b bsize : Z) (tsize : option Z) (self : progress_bar)
        (reports : list (Z * Z * option Z)) :
  bar_n (update_to b bsize tsize self) = b * bsize
  /\ bar_total (update_to b bsize tsize self)
     = match tsize with Some t => Some t | None => bar_total self end
  /\ update_to b bsize tsize (update_to b bsize tsize self)
     = update_to b bsize tsize self
  /\ bar_n (report_all (reports ++ [(b, bsize, tsize)])%list self) = b * bsize.
Proof.
  split; [apply update_to_n|]. split; [now destruct tsize|]. split.
  - unfold update_to, tqdm_update. destruct tsize; cbn; f_equal; lia.
  - unfold report_all. rewrite fold_left_app. cbn [fold_left]. apply update_to_n.
Qed.

End Progress.

(** ** Further runs on the fixtures *)
(** ** Further runs on the fixtures *)

Section FurtherRuns.

Local Open Scope nat_scope.

Lemma selection_must_be_list_witness :
  made "/tmp/out" empty_world
  /\ fst (downloader "/tmp/out" (Some [("audio", remote_zip)]) (PyDict ["audio"])
                     None false false empty_world)
     = Raise (Exn TypeError (msg_type_error (PyDict ["audio"]))).
Proof.
  split; [exact made_out|].
  exact (proj1 (selection_must_be_list "/tmp/out" [("audio", remote_zip)] None
                  false false empty_world (PyDict ["audio"]) made_out)).
Defined.

Lemma downloader_creates_save_dir_witness :
  made "/tmp/out" empty_world
  /\ exists_in (fs (snd (downloader "/tmp/out" (Some [("audio", remote_zip)]) PyNone
                                    None false false empty_world)))
               "/tmp/out" = true.
Proof.
  split; [exact made_out|].
  exact (proj1 (downloader_creates_save_dir "/tmp/out" (Some [("audio", remote_zip)])
                  PyNone None false false empty_world made_out)).
Defined.

Lemma fetch_writes_one_path_witness :
  "save_root/sub/archive.zip" <> download_path_of remote_zip "/tmp/out"
  /\ fs world_archive !! "save_root/sub/archive.zip" = Some (File "PK:good")
  /\ fs (snd (download_from_remote remote_zip "/tmp/out" false world_archive))
        !! "save_root/sub/archive.zip" = Some (File "PK:good").
Proof.
  assert ("save_root/sub/archive.zip" <> download_path_of remote_zip "/tmp/out") as Hne
      by (vm_compute; discriminate).
  assert (fs world_archive !! "save_root/sub/archive.zip" = Some (File "PK:good")) as Hf
      by (vm_compute; reflexivity).
  split; [exact Hne|]. split; [exact Hf|].
  exact (proj1 (fetch_writes_one_path remote_zip "/tmp/out" false world_archive)
               "save_root/sub/archive.zip" (File "PK:good") Hne Hf).
Defined.

Lemma download_dir_made_first_witness :
  made (download_dir_of remote_missing "/tmp/out") empty_world
  /\ fst (download_from_remote remote_missing "/tmp/out" false empty_world)
     = Raise (Exn URLError "HTTP Error 404: Not Found")
  /\ exists_in (fs (snd (download_from_remote remote_missing "/tmp/out" false
                                              empty_world)))
               (download_dir_of remote_missing "/tmp/out") = true.
Proof.
  assert (made (download_dir_of remote_missing "/tmp/out") empty_world) as Hm
      by (vm_compute; reflexivity).
  split; [exact Hm|]. split; [vm_compute; reflexivity|].
  exact (proj1 (download_dir_made_first remote_missing "/tmp/out" false empty_world) Hm).
Defined.

Lemma dir_ready_out : dir_ready (download_dir_of remote_zip "/tmp/out") empty_world.
Proof. split; vm_compute; reflexivity. Qed.

Lemma served_body_is_kept_witness :
  simple_name (filename remote_zip)
  /\ dir_ready (download_dir_of remote_zip "/tmp/out") empty_world
  /\ net empty_world (url remote_zip) = Served "PK:good"
  /\ fs (snd (download_from_remote remote_zip "/tmp/out" false empty_world))
        !! download_path_of remote_zip "/tmp/out" = Some (File "PK:good").
Proof.
  assert (simple_name (filename remote_zip)) as Hs by (split; reflexivity).
  split; [exact Hs|]. split; [exact dir_ready_out|]. split; [reflexivity|].
  exact (proj1 (served_body_is_kept remote_zip "/tmp/out" false empty_world "PK:good"
                  Hs dir_ready_out eq_refl eq_refl eq_refl
                  ltac:(vm_compute; discriminate))).
Defined.

Lemma broken_transfer_leaves_part_witness :
  simple_name (filename remote_part)
  /\ dir_ready (download_dir_of remote_part "/tmp/out") empty_world
  /\ net empty_world (url remote_part) = Failed "connection reset" (Some "PK:go")
  /\ md5_hex "PK:go" <> checksum remote_part
  /\ fst (download_from_remote remote_part "/tmp/out" false empty_world)
     = Raise (Exn URLError "connection reset")
  /\ fs (snd (download_from_remote remote_part "/tmp/out" false empty_world))
        !! download_path_of remote_part "/tmp/out" = Some (File "PK:go").
Proof.
  assert (simple_name (filename remote_part)) as Hs by (split; reflexivity).
  assert (md5_hex "PK:go" <> checksum remote_part) as Hd by (vm_compute; discriminate).
  split; [exact Hs|]. split; [exact dir_ready_out|]. split; [reflexivity|].
  split; [exact Hd|].
  pose proof (broken_transfer_leaves_part remote_part "/tmp/out" false empty_world
                "connection reset" "PK:go" Hs dir_ready_out eq_refl eq_refl eq_refl
                ltac:(vm_compute; discriminate) Hd) as H.
  exact (conj (proj1 H) (proj1 (proj2 H))).
Defined.


Lemma unpacking_removes_archive_only_witness :
  is_file (fs world_archive) "save_root/sub/archive.zip"
  /\ is_file (fs (snd (unzip "save_root/sub/archive.zip" false world_archive)))
             "save_root/sub/archive.zip".
Proof.
  assert (is_file (fs world_archive) "save_root/sub/archive.zip") as Ha
      by (exists "PK:good"; vm_compute; reflexivity).
  split; [exact Ha|].
  exact (proj1 (proj1 (unpacking_removes_archive_only "save_root/sub/archive.zip" false
                         world_archive))
               "save_root/sub/archive.zip" Ha (or_introl eq_refl)).
Defined.

Lemma cleanup_costs_a_transfer_witness :
  well_named remote_zip
  /\ fst (download_zip_file remote_zip "/tmp/out" false true empty_world) = Ok tt
  /\ net_calls (snd (download_zip_file remote_zip "/tmp/out" false true
                       (snd (download_zip_file remote_zip "/tmp/out" false true
                                               empty_world))))
     = S (net_calls (snd (download_zip_file remote_zip "/tmp/out" false true
                                            empty_world))).
Proof.
  assert (well_named remote_zip) as Hw by (split; reflexivity).
  assert (fst (download_zip_file remote_zip "/tmp/out" false true empty_world) = Ok tt)
    as Hok by (vm_compute; reflexivity).
  split; [exact Hw|]. split; [exact Hok|].
  exact (proj1 (cleanup_costs_a_transfer remote_zip "/tmp/out" false true empty_world Hw)
               Hok).
Defined.

Lemma kept_archive_is_reused_witness :
  fst (download_zip_file remote_zip "/tmp/out" false false empty_world) = Ok tt
  /\ net_calls (snd (download_zip_file remote_zip "/tmp/out" false false
                       (snd (download_zip_file remote_zip "/tmp/out" false false
                                               empty_world))))
     = net_calls (snd (download_zip_file remote_zip "/tmp/out" false false
                                         empty_world)).
Proof.
  assert (fst (download_zip_file remote_zip "/tmp/out" false false empty_world) = Ok tt)
    as Hok by (vm_compute; reflexivity).
  split; [exact Hok|].
  exact (proj1 (kept_archive_is_reused remote_zip "/tmp/out" false false empty_world)
               Hok).
Defined.


Example archive_unpacked_example :
  fs (snd (download_zip_file remote_sub "/tmp/out" false false empty_world))
     !! "/tmp/out/sub/data/x.csv" = Some (File "1,2").
Proof. vm_compute. reflexivity. Qed.

Lemma three_lists_partition_witness :
  (forall k, In k ["audio"; "notes"] ->
             in_keys k [("audio", remote_zip); ("notes", remote_targz)] = true)
  /\ exists zs ts ps,
       partition_downloads [("audio", remote_zip); ("notes", remote_targz)]
                           ["audio"; "notes"] [] [] [] empty_world
       = (Ok (zs, ts, ps), empty_world)
       /\ Permutation (zs ++ ts ++ ps)%list [remote_zip; remote_targz].
Proof.
  assert (forall k, In k ["audio"; "notes"] ->
                    in_keys k [("audio", remote_zip); ("notes", remote_targz)] = true)
    as Hk by (intros k [<-|[<-|[]]]; reflexivity).
  split; [exact Hk|].
  destruct (three_lists_partition [("audio", remote_zip); ("notes", remote_targz)]
              ["audio"; "notes"] empty_world Hk)
    as (zs & ts & ps & Hp & _ & _ & _ & Hperm & _).
  exists zs, ts, ps. split; [exact Hp | exact Hperm].
Defined.

Lemma failing_zip_ends_the_call_witness :
  (forall k, In k ["plain"; "gone"] ->
             in_keys k [("gone", remote_missing); ("plain", remote_targz)] = true)
  /\ fst (download_all [("gone", remote_missing); ("plain", remote_targz)]
                       ["plain"; "gone"] "/tmp/out" false false empty_world)
     = Raise (Exn URLError "HTTP Error 404: Not Found")
  /\ net_calls (snd (download_all [("gone", remote_missing); ("plain", remote_targz)]
                                  ["plain"; "gone"] "/tmp/out" false false empty_world))
     = 1.
Proof.
  assert (forall k, In k ["plain"; "gone"] ->
                    in_keys k [("gone", remote_missing); ("plain", remote_targz)] = true)
    as Hk by (intros k [<-|[<-|[]]]; reflexivity).
  split; [exact Hk|].
  pose proof (failing_zip_ends_the_call
                [("gone", remote_missing); ("plain", remote_targz)] ["plain"; "gone"]
                "/tmp/out" false false empty_world empty_world
                (snd (download_zip_file remote_missing "/tmp/out" false false empty_world))
                [] [] remote_missing (Exn URLError "HTTP Error 404: Not Found")
                Hk eq_refl eq_refl
                ltac:(rewrite (surjective_pairing
                                 (download_zip_file remote_missing "/tmp/out" false false
                                                    empty_world));
                      f_equal; vm_compute; reflexivity)) as H.
  rewrite H. split; [reflexivity | vm_compute; reflexivity].
Defined.

End FurtherRuns.
